(** * Match driver of the autogtp client (Game.cpp): shallow embedding

    The C++ class [Game] drives one engine process over GTP.  Its members
    are embedded as a record [Game]; the [QProcess] it inherits from and the
    standard output stream are embedded as a record [World] that is threaded
    through every member function.  Integers of type [int] are values of [Z]
    with the 32-bit wrap-around written out in [Int]. *)

From Stdlib Require Import ZArith Lia Bool List String Ascii.
From Stdlib Require Import Floats.SpecFloat.
From Stdlib Require Import DecimalString Zquot.
Import ListNotations.

Open Scope string_scope.
Open Scope Z_scope.

(* ------------------------------------------------------------------ *)
(** ** 32-bit [int] *)

Module Int.

Definition INT_MIN : Z := -2147483648.
Definition INT_MAX : Z := 2147483647.

Definition in_range (z : Z) : Prop := INT_MIN <= z <= INT_MAX.

Definition in_rangeb (z : Z) : bool := (INT_MIN <=? z) && (z <=? INT_MAX).

(** Two's complement reduction of a mathematical integer to [int]. *)
Definition wrap (z : Z) : Z := (z + 2147483648) mod 4294967296 - 2147483648.

Definition add (a b : Z) : Z := wrap (a + b).
Definition sub (a b : Z) : Z := wrap (a - b).
Definition mul (a b : Z) : Z := wrap (a * b).

End Int.

(* ------------------------------------------------------------------ *)
(** ** The [QString] operations the driver uses

    Characters are 8-bit ([ascii]); GTP traffic is ASCII text. *)

Module QString.

Definition LF : ascii := ascii_of_nat 10.

(** [QChar::isSpace] on the 8-bit range: TAB, LF, VT, FF, CR and space. *)
Definition isSpace (c : ascii) : bool :=
  let n := nat_of_ascii c in
  (Nat.eqb n 32 || (Nat.leb 9 n && Nat.leb n 13))%bool.

Definition toLower (c : ascii) : ascii :=
  let n := nat_of_ascii c in
  if (Nat.leb 65 n && Nat.leb n 90)%bool then ascii_of_nat (n + 32) else c.

(** [s[0]] on a NUL-terminated buffer (and on a [QString] through
    [QCharRef]): the NUL character when the text is empty. *)
Definition at0 (s : string) : ascii :=
  match s with
  | EmptyString => zero
  | String c _ => c
  end.

Fixpoint drop (n : nat) (s : string) : string :=
  match n, s with
  | O, _ => s
  | S _, EmptyString => EmptyString
  | S k, String _ s' => drop k s'
  end.

Fixpoint take (n : nat) (s : string) : string :=
  match n, s with
  | O, _ => EmptyString
  | S _, EmptyString => EmptyString
  | S k, String c s' => String c (take k s')
  end.

(** [s.remove(pos, n)] *)
Definition remove (pos n : nat) (s : string) : string :=
  take pos s ++ drop (pos + n) s.

Fixpoint startsWith (s pre : string) : bool :=
  match pre, s with
  | EmptyString, _ => true
  | String _ _, EmptyString => false
  | String p pre', String c s' => (Ascii.eqb c p && startsWith s' pre')%bool
  end.

Fixpoint trimLeft (s : string) : string :=
  match s with
  | EmptyString => EmptyString
  | String c s' => if isSpace c then trimLeft s' else s
  end.

Fixpoint trimRight (s : string) : string :=
  match s with
  | EmptyString => EmptyString
  | String c s' =>
      match trimRight s' with
      | EmptyString => if isSpace c then EmptyString else String c EmptyString
      | t => String c t
      end
  end.

(** [s.trimmed()] *)
Definition trimmed (s : string) : string := trimRight (trimLeft s).

Inductive Scan := AtStart | InWord | InGap.

Fixpoint simplifiedFrom (st : Scan) (s : string) : string :=
  match s with
  | EmptyString => EmptyString
  | String c s' =>
      if isSpace c then
        simplifiedFrom (match st with AtStart => AtStart | _ => InGap end) s'
      else
        match st with
        | InGap => String " " (String c (simplifiedFrom InWord s'))
        | _ => String c (simplifiedFrom InWord s')
        end
  end.

(** [s.simplified()]: trimmed, inner runs of whitespace become one space. *)
Definition simplified (s : string) : string := simplifiedFrom AtStart s.

(** [s.split(sep)] for a one-character separator, empty parts kept. *)
Fixpoint split (sep : ascii) (s : string) : list string :=
  match s with
  | EmptyString => [EmptyString]
  | String c s' =>
      if Ascii.eqb c sep then EmptyString :: split sep s'
      else
        match split sep s' with
        | [] => [String c EmptyString]
        | p :: ps => String c p :: ps
        end
  end.

(** [a.compare(b, Qt::CaseInsensitive) == 0] *)
Fixpoint equalCI (a b : string) : bool :=
  match a, b with
  | EmptyString, EmptyString => true
  | String x a', String y b' =>
      (Ascii.eqb (toLower x) (toLower y) && equalCI a' b')%bool
  | _, _ => false
  end.

Fixpoint startsWithCI (s pre : string) : bool :=
  match pre, s with
  | EmptyString, _ => true
  | String _ _, EmptyString => false
  | String p pre', String c s' =>
      (Ascii.eqb (toLower c) (toLower p) && startsWithCI s' pre')%bool
  end.

(** [s.contains(needle, Qt::CaseInsensitive)] *)
Fixpoint containsCI (s needle : string) : bool :=
  (startsWithCI s needle ||
   match s with
   | EmptyString => false
   | String _ s' => containsCI s' needle
   end)%bool.

Definition digitVal (c : ascii) : option Z :=
  let n := nat_of_ascii c in
  if (Nat.leb 48 n && Nat.leb n 57)%bool then Some (Z.of_nat n - 48) else None.

Fixpoint digitsVal (acc : Z) (s : string) : option Z :=
  match s with
  | EmptyString => Some acc
  | String c s' =>
      match digitVal c with
      | Some d => digitsVal (acc * 10 + d) s'
      | None => None
      end
  end.

(** [s.toInt()]: base 10, surrounding whitespace ignored, optional sign;
    0 when the text is not a number or does not fit an [int]. *)
Definition toInt (s : string) : Z :=
  match trimmed s with
  | EmptyString => 0
  | String c r =>
      let '(neg, ds) :=
        if Ascii.eqb c "-" then (true, r)
        else if Ascii.eqb c "+" then (false, r)
        else (false, String c r) in
      match ds with
      | EmptyString => 0
      | _ =>
          match digitsVal 0 ds with
          | Some v =>
              let v' := if neg then - v else v in
              if Int.in_rangeb v' then v' else 0
          | None => 0
          end
      end
  end.

End QString.

Import QString.

Definition newline : string := String LF EmptyString.


(* ------------------------------------------------------------------ *)
(** ** The engine process and the console

    [incoming] is what the engine will answer, one entry per line the driver
    waits for: [Line readCount readBuffer] is a line delivered by [readLine]
    (return value and NUL-terminated buffer contents), [Gone] is the process
    found not running.  An exhausted list also reads as not running, so no
    wait blocks for ever. *)

Inductive Event :=
| Gone
| Line (readCount : Z) (readBuffer : string).

(** What [QTextStream(stdout) << x] receives. *)
Inductive Out :=
| Text (s : string)
| Num (n : Z)
| Endl.

Record World := mkWorld {
  incoming : list Event;
  written : list string;
  console : list Out;
  terminated : bool
}.

Definition print (o : list Out) (w : World) : World :=
  mkWorld (incoming w) (written w) (console w ++ o) (terminated w).

Definition write (s : string) (w : World) : World :=
  mkWorld (incoming w) (written w ++ [s]) (console w) (terminated w).

Definition terminate (w : World) : World :=
  mkWorld (incoming w) (written w) (console w) true.

Definition readLine (w : World) : (Z * string) * World :=
  match incoming w with
  | Line readCount readBuffer :: rest =>
      ((readCount, readBuffer),
       mkWorld rest (written w) (console w) (terminated w))
  | _ => ((-1, EmptyString), w)
  end.

(** [Game::waitReady]: true iff the process is running with a line to read. *)
Definition waitReady (w : World) : bool :=
  match incoming w with
  | Line _ _ :: _ => true
  | _ => false
  end.

Inductive ErrNum := NO_LEELAZ | PROCESS_DIED | WRONG_GTP | LAUNCH_FAILURE | OTHER_ERROR.

(** [Game::error] *)
Definition error (errnum : ErrNum) (w : World) : World :=
  let w := print [Text "*ERROR*: "] w in
  match errnum with
  | NO_LEELAZ => print [Text "No 'leelaz' binary found."; Endl] w
  | PROCESS_DIED => print [Text "The 'leelaz' process died unexpected."; Endl] w
  | WRONG_GTP => print [Text "Error in GTP response."; Endl] w
  | LAUNCH_FAILURE => print [Text "Could not talk to engine after launching."; Endl] w
  | OTHER_ERROR => print [Text "Unexpected error."; Endl] w
  end.

(** [Game::eatNewLine] *)
Definition eatNewLine (w : World) : bool * World :=
  if negb (waitReady w) then (false, error PROCESS_DIED w)
  else
    let '((readCount, _), w) := readLine w in
    if readCount <? 0 then (false, error WRONG_GTP w)
    else (true, w).

(** [Game::sendGtpCommandForResponse] *)
Definition sendGtpCommandForResponse (cmd : string) (w : World) : string * World :=
  let w := write (cmd ++ newline) w in
  if negb (waitReady w) then ("PROCESS_DIED", error PROCESS_DIED w)
  else
    let '((readCount, readBuffer), w) := readLine w in
    let w :=
      if ((readCount <=? 0) || negb (Ascii.eqb (at0 readBuffer) "="))%bool
      then error WRONG_GTP (print [Text "GTP: "; Text readBuffer; Endl] w)
      else w in
    let '(ok, w) := eatNewLine w in
    let w := if ok then w else error PROCESS_DIED w in
    (readBuffer, w).

(** [Game::sendGtpCommand] *)
Definition sendGtpCommand (cmd : string) (w : World) : bool * World :=
  let '(response, w) := sendGtpCommandForResponse cmd w in
  (startsWith response "= ", w).

(** [Game::sendGtpCommandForResponseTrimmed] *)
Definition sendGtpCommandForResponseTrimmed (cmd : string) (w : World)
  : string * World :=
  let '(response, w) := sendGtpCommandForResponse cmd w in
  (trimmed (remove 0 2 response), w).

(* ------------------------------------------------------------------ *)
(** ** The members of [Game]

    [m_passes] and [m_moveNum] are [int]; [m_winner] is [None] while the
    [QString] is null. *)

Record Game := mkGame {
  m_scoreEarly : bool;
  m_resignation : bool;
  m_blackToMove : bool;
  m_blackResigned : bool;
  m_passes : Z;
  m_moveNum : Z;
  m_moveDone : string;
  m_winner : option string;
  m_result : string
}.

(** The state the constructor leaves. *)
Definition newGame : Game :=
  mkGame false false true false 0 0 EmptyString None EmptyString.

Definition set_scoreEarly (v : bool) (g : Game) : Game :=
  mkGame v (m_resignation g) (m_blackToMove g) (m_blackResigned g)
         (m_passes g) (m_moveNum g) (m_moveDone g) (m_winner g) (m_result g).

Definition set_resignation (v : bool) (g : Game) : Game :=
  mkGame (m_scoreEarly g) v (m_blackToMove g) (m_blackResigned g)
         (m_passes g) (m_moveNum g) (m_moveDone g) (m_winner g) (m_result g).

Definition set_blackToMove (v : bool) (g : Game) : Game :=
  mkGame (m_scoreEarly g) (m_resignation g) v (m_blackResigned g)
         (m_passes g) (m_moveNum g) (m_moveDone g) (m_winner g) (m_result g).

Definition set_blackResigned (v : bool) (g : Game) : Game :=
  mkGame (m_scoreEarly g) (m_resignation g) (m_blackToMove g) v
         (m_passes g) (m_moveNum g) (m_moveDone g) (m_winner g) (m_result g).

Definition set_passes (v : Z) (g : Game) : Game :=
  mkGame (m_scoreEarly g) (m_resignation g) (m_blackToMove g) (m_blackResigned g)
         v (m_moveNum g) (m_moveDone g) (m_winner g) (m_result g).

Definition set_moveNum (v : Z) (g : Game) : Game :=
  mkGame (m_scoreEarly g) (m_resignation g) (m_blackToMove g) (m_blackResigned g)
         (m_passes g) v (m_moveDone g) (m_winner g) (m_result g).

Definition set_moveDone (v : string) (g : Game) : Game :=
  mkGame (m_scoreEarly g) (m_resignation g) (m_blackToMove g) (m_blackResigned g)
         (m_passes g) (m_moveNum g) v (m_winner g) (m_result g).

Definition set_winner (v : option string) (g : Game) : Game :=
  mkGame (m_scoreEarly g) (m_resignation g) (m_blackToMove g) (m_blackResigned g)
         (m_passes g) (m_moveNum g) (m_moveDone g) v (m_result g).

Definition set_result (v : string) (g : Game) : Game :=
  mkGame (m_scoreEarly g) (m_resignation g) (m_blackToMove g) (m_blackResigned g)
         (m_passes g) (m_moveNum g) (m_moveDone g) (m_winner g) v.

(** What a member function that may leave through [QList::at] out of range
    produces. *)
Inductive Outcome (A : Type) :=
| Returns (a : A)
| OutOfRange.
Arguments Returns {A} a.
Arguments OutOfRange {A}.

(** The move-token dispatch shared by [readMove] and [setMove]. *)
Definition isPass (tok : string) : bool := equalCI tok "pass".
Definition isResign (tok : string) : bool := equalCI tok "resign".

(** [Game::move] *)
Definition move (g : Game) (w : World) : Game * World :=
  let g := set_moveNum (Int.add (m_moveNum g) 1) g in
  let moveCmd :=
    if m_blackToMove g then "genmove b" ++ newline else "genmove w" ++ newline in
  (g, write moveCmd w).

(** [Game::setMovesCount]: [%] truncates toward zero, as [Z.rem]. *)
Definition setMovesCount (moves : Z) (g : Game) : Game :=
  set_blackToMove (Z.rem moves 2 =? 0) (set_moveNum moves g).

(** [Game::readMove] *)
Definition readMove (g : Game) (w : World) : bool * Game * World :=
  let '((readCount, readBuffer), w) := readLine w in
  if ((readCount <=? 3) || negb (Ascii.eqb (at0 readBuffer) "="))%bool then
    let w := error WRONG_GTP w in
    let w := print [Text "Error read "; Num readCount; Text " '"] w in
    let w := print [Text readBuffer; Text "'"; Endl] w in
    (false, g, terminate w)
  else
    let g := set_moveDone (simplified (remove 0 2 readBuffer)) g in
    let '(ok, w) := eatNewLine w in
    if negb ok then (false, g, error PROCESS_DIED w)
    else
      let w := print [Num (m_moveNum g); Text " ("] w in
      let w := print [Text (if m_blackToMove g then "B " else "W ");
                      Text (m_moveDone g); Text ") "] w in
      let g :=
        if isPass (m_moveDone g) then
          set_passes (Int.add (m_passes g) 1) g
        else if isResign (m_moveDone g) then
          set_blackResigned (m_blackToMove g) (set_resignation true g)
        else
          set_passes 0 g in
      (true, g, w).

(** [Game::setMove] *)
Definition setMove (m : string) (g : Game) (w : World)
  : Outcome (bool * Game) * World :=
  let '(sent, w) := sendGtpCommand m w in
  if negb sent then (Returns (false, g), w)
  else
    let g := set_moveNum (Int.add (m_moveNum g) 1) g in
    let moves := split " " m in
    match nth_error moves 2 with
    | None => (OutOfRange, w)
    | Some tok =>
        let updated :=
          if isPass tok then
            Returns (set_passes (Int.add (m_passes g) 1) g)
          else if isResign tok then
            match nth_error moves 1 with
            | None => OutOfRange
            | Some colour =>
                Returns (set_blackResigned (equalCI colour "black")
                           (set_resignation true g))
            end
          else
            Returns (set_passes 0 g) in
        match updated with
        | OutOfRange => (OutOfRange, w)
        | Returns g =>
            (Returns (true, set_blackToMove (negb (m_blackToMove g)) g), w)
        end
    end.

Section Board.

(** [BOARD_SIZE] comes from config.h; it is an [int] constant. *)
Variable BOARD_SIZE : Z.

(** [Game::checkGameEnd] *)
Definition checkGameEnd (g : Game) : bool :=
  (m_resignation g ||
   (m_passes g >? 1) ||
   (m_moveNum g >? Int.mul (Int.mul BOARD_SIZE BOARD_SIZE) 2))%bool.

(** [Game::nextMove] *)
Definition nextMove (g : Game) : bool * Game :=
  if checkGameEnd g then (false, g)
  else (true, set_blackToMove (negb (m_blackToMove g)) g).

End Board.

(* ------------------------------------------------------------------ *)
(** ** Handshake: [Game::checkVersion] *)

(** [std::tuple<int, int, int>] *)
Definition VersionTuple : Type := Z * Z * Z.

(** A function that may call [exit(EXIT_FAILURE)]. *)
Inductive Exit (A : Type) :=
| Continues (a : A) (w : World)
| Exited (w : World).
Arguments Continues {A} a w.
Arguments Exited {A} w.

(** [version_list[i].toInt()], [i] in range after the patch default. *)
Definition component (version_list : list string) (i : nat) : Z :=
  toInt (nth i version_list EmptyString).

(** The value of [versionCount] after its three assignments. *)
Definition versionCount (min_version : VersionTuple) (version_list : list string) : Z :=
  let '(min0, min1, min2) := min_version in
  let versionCount := Int.mul (Int.sub (component version_list 0) min0) 10000 in
  let versionCount :=
    Int.add versionCount (Int.mul (Int.sub (component version_list 1) min1) 100) in
  Int.add versionCount (Int.sub (component version_list 2) min2).

Inductive Gate := Unexpected | TooOld | Accepted.

(** The part of [checkVersion] from the split of [version_buff] to the
    comparison of [versionCount] with 0. *)
Definition versionGate (min_version : VersionTuple) (version_buff : string) : Gate :=
  let version_list := split "." version_buff in
  if (List.length version_list <? 2)%nat then Unexpected
  else
    let version_list :=
      if (List.length version_list <? 3)%nat then (version_list ++ ["0"])%list
      else version_list in
    if versionCount min_version version_list <? 0 then TooOld else Accepted.

(** [Game::checkVersion].  The comment line is echoed without its last
    character ([readBuffer[readCount-1] = 0]). *)
Definition checkVersion (min_version : VersionTuple) (w : World) : Exit unit :=
  let w := write ("version" ++ newline) w in
  if negb (waitReady w) then Exited (error LAUNCH_FAILURE w)
  else
    let '((readCount, readBuffer), w) := readLine w in
    let answer :=
      if Ascii.eqb (at0 readBuffer) "#" then
        let w := print [Text (take (Z.to_nat (readCount - 1)) readBuffer); Endl] w in
        if negb (waitReady w) then Exited (error PROCESS_DIED w)
        else let '(line, w) := readLine w in Continues line w
      else Continues (readCount, readBuffer) w in
    match answer with
    | Exited w => Exited w
    | Continues (readCount, readBuffer) w =>
        if ((readCount <=? 3) || negb (Ascii.eqb (at0 readBuffer) "="))%bool then
          Exited (error WRONG_GTP (print [Text "GTP: "; Text readBuffer; Endl] w))
        else
          let version_buff := simplified (drop 2 readBuffer) in
          let '(min0, min1, min2) := min_version in
          match versionGate min_version version_buff with
          | Unexpected =>
              Exited (print [Text "Unexpected Leela Zero version: ";
                             Text version_buff; Endl] w)
          | TooOld =>
              let w := print [Text "Leela version is too old, saw ";
                              Text version_buff; Text " but expected ";
                              Num min0; Text "."; Num min1; Text "."; Num min2;
                              Endl] w in
              Exited (print [Text "Check https://github.com/gcp/leela-zero for updates.";
                             Endl] w)
          | Accepted =>
              let '(ok, w) := eatNewLine w in
              if negb ok then Exited (error WRONG_GTP w)
              else Continues tt w
          end
    end.

(** [Game::gameStart], after [start(m_cmdLine)]; [started] is the result of
    [waitForStarted()]. *)
Definition gameStart (started : bool) (min_version : VersionTuple) (w : World)
  : Exit bool :=
  if negb started then Continues false (error NO_LEELAZ w)
  else
    match checkVersion min_version w with
    | Exited w => Exited w
    | Continues _ w =>
        let w := print [Text "Engine has started."; Endl] w in
        let '(_, w) := sendGtpCommand "time_settings 0 1 0" w in
        Continues true (print [Text "Infinite thinking time set."; Endl] w)
    end.

(* ------------------------------------------------------------------ *)
(** ** Scoring: [Game::getScore] and the estimate queries

    [float] is IEEE binary32, as specified by [spec_float] with a 24-bit
    significand.  Text-to-number conversion, number formatting and the
    exponential are library calls (Qt, libm); they are taken as a record of
    functions. *)

Module F32.

Definition prec : Z := 24.
Definition emax : Z := 128.

Definition float : Type := spec_float.

Definition zero : float := S754_zero false.
Definition one : float := S754_finite false 8388608 (-23).

Definition opp : float -> float := SFopp.
Definition abs : float -> float := SFabs.
Definition add : float -> float -> float := SFadd prec emax.
Definition mul : float -> float -> float := SFmul prec emax.
Definition div : float -> float -> float := SFdiv prec emax.
Definition eqb : float -> float -> bool := SFeqb.
Definition ltb : float -> float -> bool := SFltb.

End F32.

Record Numerics := mkNumerics {
  (** [QString::toFloat(&ok)]: the value and the flag [ok] *)
  toFloat : string -> F32.float * bool;
  (** [QString().setNum(x, 'f', 3)] *)
  setNum_f3 : F32.float -> string;
  (** [std::exp] on [float] *)
  exp : F32.float -> F32.float
}.

(** The [float] nearest to the literal 1.8137993642342178505940782576... *)
Definition piOverSqrt3 : F32.float := S754_finite false 15215252 (-23).

Section Scoring.

Variable lib : Numerics.

(** [Game::getScoreEstimateMean] *)
Definition getScoreEstimateMean (w : World) : F32.float * World :=
  let '(response, w) := sendGtpCommandForResponseTrimmed "estimate_score_mean" w in
  let '(mean, parse) := toFloat lib response in
  let w := if negb parse then error WRONG_GTP w else w in
  (mean, w).

(** [Game::getScoreEstimateStandardDeviation] *)
Definition getScoreEstimateStandardDeviation (w : World) : F32.float * World :=
  let '(response, w) :=
    sendGtpCommandForResponseTrimmed "estimate_score_standard_deviation" w in
  let '(standard, parse) := toFloat lib response in
  let w := if negb parse then error WRONG_GTP w else w in
  (standard, w).

(** [1.0f/(1.0f+std::exp(-mean*piOverSqrt3/stdDev))] *)
Definition winRateOf (mean stdDev : F32.float) : F32.float :=
  F32.div F32.one
    (F32.add F32.one
       (exp lib (F32.div (F32.mul (F32.opp mean) piOverSqrt3) stdDev))).

(** [Game::getScore]; [abs(mean)] is the floating-point overload (its
    result is passed to [setNum(float, char, int)]). *)
Definition getScore (scoreEarly : bool) (g : Game) (w : World)
  : bool * Game * World :=
  let '(g, w) :=
    if m_resignation g then
      if m_blackResigned g then
        let g := set_winner (Some "white") g in
        let g := set_result "W+Resign : 0.000" g in
        (g, print [Text "Score: "; Text (m_result g); Endl] w)
      else
        let g := set_winner (Some "black") g in
        let g := set_result "B+Resign : 1.000" g in
        (g, print [Text "Score: "; Text (m_result g); Endl] w)
    else if scoreEarly then
      let g := set_scoreEarly true g in
      let g := set_winner (Some "early") g in
      let '(mean, w) := getScoreEstimateMean w in
      let '(stdDev, w) := getScoreEstimateStandardDeviation w in
      let winRate := winRateOf mean stdDev in
      let g := set_result "0" g in
      let g :=
        if negb (F32.eqb mean F32.zero) then
          set_result ((if F32.ltb F32.zero mean then "B+" else "W+")
                      ++ setNum_f3 lib (F32.abs mean)) g
        else g in
      let g := set_result (m_result g ++ " : " ++ setNum_f3 lib winRate) g in
      (g, w)
    else
      let '(response, w) := sendGtpCommandForResponseTrimmed "final_score" w in
      let g := set_result response g in
      let g :=
        if Ascii.eqb (at0 (m_result g)) "W" then
          let g := set_winner (Some "white") g in
          set_result (m_result g ++ " : 0.000") g
        else if Ascii.eqb (at0 (m_result g)) "B" then
          let g := set_winner (Some "black") g in
          set_result (m_result g ++ " : 1.000") g
        else if Ascii.eqb (at0 (m_result g)) "0" then
          let g := set_winner (Some "panda") g in
          set_result (m_result g ++ " : 0.500") g
        else g in
      (g, print [Text "Score: "; Text (m_result g)] w) in
  match m_winner g with
  | None => (false, g, print [Text "No winner found"; Endl] w)
  | Some winner => (true, g, print [Text "Winner: "; Text winner; Endl] w)
  end.

End Scoring.

(** The enumerators [getWinner] returns. *)
Inductive Winner := BLACK | WHITE | PANDA | EARLY.

(** [Game::getWinner]; a null [m_winner] compares as the empty text. *)
Definition getWinner (g : Game) : Winner :=
  let winner := match m_winner g with Some s => s | None => EmptyString end in
  if equalCI winner "white" then WHITE
  else if equalCI winner "black" then BLACK
  else if equalCI winner "panda" then PANDA
  else EARLY.

(* ------------------------------------------------------------------ *)
(** ** Transcript correction: the resignation block of [Game::fixSgf]

    [QString::replace(QRegularExpression, QString)] replaces every match,
    found from left to right, the search resuming behind each match.  The
    three patterns of the block are matched by hand: a literal prefix, then
    [.*] (greedy, any character but LF), then a closing bracket; and one
    literal. *)

(** Length of the text [.*\]] matches at the start of [s]: up to the last
    closing bracket before the end of the line. *)
Fixpoint greedyToBracket (s : string) : option nat :=
  match s with
  | EmptyString => None
  | String c s' =>
      if Ascii.eqb c LF then None
      else
        match greedyToBracket s' with
        | Some n => Some (S n)
        | None => if Ascii.eqb c "]" then Some 1%nat else None
        end
  end.

(** Length of the match of [prefix.*\]] at the start of [s]. *)
Definition matchTag (prefix s : string) : option nat :=
  if startsWith s prefix then
    match greedyToBracket (drop (String.length prefix) s) with
    | Some n => Some (String.length prefix + n)%nat
    | None => None
    end
  else None.

(** Length of the match of a literal at the start of [s]. *)
Definition matchLiteral (lit s : string) : option nat :=
  if startsWith s lit then Some (String.length lit) else None.

(** Replace every match; [skip] characters of a match are still to be
    passed over. *)
Fixpoint replaceFrom (matchAt : string -> option nat) (after : string)
         (skip : nat) (s : string) : string :=
  match s with
  | EmptyString => EmptyString
  | String c s' =>
      match skip with
      | S k => replaceFrom matchAt after k s'
      | O =>
          match matchAt s with
          | Some (S n) => after ++ replaceFrom matchAt after n s'
          | _ => String c (replaceFrom matchAt after 0 s')
          end
      end
  end.

Definition replace (matchAt : string -> option nat) (after s : string) : string :=
  replaceFrom matchAt after 0 s.

Definition newResult : string := "RE[B+Resign] ".

(** [oldResult], [oldwResult] and [lastpass] *)
Definition oldResult : string -> option nat := matchTag "RE[B+".
Definition oldwResult : string -> option nat := matchTag "RE[W+".
Definition lastpass : string -> option nat := matchLiteral ";W[tt])".

(** The statements of [fixSgf] under [if (resignation)], on [sgfData]. *)
Definition fixSgfResignation (sgfData : string) : string :=
  let sgfData := replace oldResult newResult sgfData in
  let sgfData :=
    if negb (containsCI sgfData newResult) then
      replace oldwResult newResult sgfData
    else sgfData in
  replace lastpass ")" sgfData.

(* ------------------------------------------------------------------ *)
(** ** Sample engines

    [engineSays lines] is a running engine that will deliver the given
    lines, each with its length as [readLine]'s return value. *)

Definition engineSays (lines : list string) : World :=
  mkWorld (map (fun s => Line (Z.of_nat (String.length s)) s) lines) [] [] false.

(** A stand-in for the numeric library, enough to run the scoring code on
    sample input: it reads unsigned decimal integers (exactly, through
    [binary_normalize]), prints a placeholder and has a constant [exp]. *)
Definition sampleNumerics : Numerics :=
  mkNumerics
    (fun s =>
       match s with
       | EmptyString => (F32.zero, false)
       | _ =>
           match digitsVal 0 s with
           | Some v => (binary_normalize F32.prec F32.emax v 0 false, true)
           | None => (F32.zero, false)
           end
       end)
    (fun _ => "#.###")
    (fun _ => F32.one).

(** [QRegularExpression::match(s).hasMatch()] for a hand-written matcher. *)
Fixpoint hasMatch (matchAt : string -> option nat) (s : string) : bool :=
  (match matchAt s with Some _ => true | None => false end ||
   match s with
   | EmptyString => false
   | String _ s' => hasMatch matchAt s'
   end)%bool.

(* ------------------------------------------------------------------ *)
(** ** The file commands of [Game]

    [m_fileName] is set once by the constructor; the functions that use it
    take it as an argument. *)

(** [QString::number(int)] *)
Definition number (n : Z) : string :=
  DecimalString.NilZero.string_of_int (Z.to_int n).

(** [Game::writeSgf] *)
Definition writeSgf (m_fileName : string) (w : World) : bool * World :=
  sendGtpCommand ("printsgf " ++ m_fileName ++ ".sgf") w.

(** [Game::loadTraining] *)
Definition loadTraining (fileName : string) (w : World) : bool * World :=
  let w := print [Text "Loading "; Text (fileName ++ ".train"); Endl] w in
  sendGtpCommand ("load_training " ++ fileName ++ ".train") w.

(** [Game::saveTraining] *)
Definition saveTraining (m_fileName : string) (w : World) : bool * World :=
  let w := print [Text "Saving "; Text (m_fileName ++ ".train"); Endl] w in
  sendGtpCommand ("save_training " ++ m_fileName ++ ".train") w.

(** [Game::loadSgf(fileName)] *)
Definition loadSgf (fileName : string) (w : World) : bool * World :=
  let w := print [Text "Loading "; Text (fileName ++ ".sgf"); Endl] w in
  sendGtpCommand ("loadsgf " ++ fileName ++ ".sgf") w.

(** [Game::loadSgf(fileName, moves)] *)
Definition loadSgfMoves (fileName : string) (moves : Z) (w : World)
  : bool * World :=
  let w := print [Text "Loading "; Text (fileName ++ ".sgf with "); Num moves;
                  Text " moves"; Endl] w in
  sendGtpCommand ("loadsgf " ++ fileName ++ ".sgf " ++ number moves) w.

(** [Game::dumpTraining]; a null [m_winner] concatenates as the empty text. *)
Definition dumpTraining (m_fileName : string) (g : Game) (w : World)
  : bool * World :=
  let winner := match m_winner g with Some s => s | None => EmptyString end in
  sendGtpCommand ("dump_training " ++ winner ++ " " ++ m_fileName ++ ".txt") w.

(** [Game::dumpDebug] *)
Definition dumpDebug (m_fileName : string) (w : World) : bool * World :=
  sendGtpCommand ("dump_debug " ++ m_fileName ++ ".debug.txt") w.

(** [Game::gameQuit], up to the wait for the process to finish. *)
Definition gameQuit (w : World) : World := write ("quit" ++ newline) w.

(* ------------------------------------------------------------------ *)
(** ** [Game::fixSgf] as a whole

    The transcript file is [Some text] when it opens for reading and [None]
    otherwise; [writable] tells whether it opens for writing afterwards.
    None of the patterns has a capture group, so the replacement texts are
    inserted as they are. *)

(** Length of the text [\\S* ] matches at the start of [s]. *)
Fixpoint wordThenSpace (s : string) : option nat :=
  match s with
  | EmptyString => None
  | String c s' =>
      if Ascii.eqb c " " then Some 1%nat
      else if isSpace c then None
      else
        match wordThenSpace s' with
        | Some n => Some (S n)
        | None => None
        end
  end.

(** Length of the match of [PB\\[Leela Zero \\S+ ] at the start of [s]. *)
Definition matchPlayer (s : string) : option nat :=
  if startsWith s "PB[Leela Zero " then
    match drop 14 s with
    | EmptyString => None
    | String c s' =>
        if isSpace c then None
        else
          match wordThenSpace s' with
          | Some n => Some (14 + S n)%nat
          | None => None
          end
    end
  else None.

(** [re.match(s)]: the text of the leftmost match, [None] without a match. *)
Fixpoint captured0 (matchAt : string -> option nat) (s : string) : option string :=
  match matchAt s with
  | Some n => Some (take n s)
  | None =>
      match s with
      | EmptyString => None
      | String _ s' => captured0 matchAt s'
      end
  end.

(** The player tag that replaces [PW[Human]]. *)
Definition playerTag (weightFile sgfData : string) : string :=
  let playerName :=
    match captured0 matchPlayer sgfData with
    | Some text => text
    | None => "PB[Leela Zero "
    end in
  let playerName := "PW" ++ remove 0 2 playerName in
  let playerName := playerName ++ take 8 weightFile in
  playerName ++ "]".

Section FixSgf.

Variable lib : Numerics.

(** [Game::fixSgf]: the result, the file afterwards and the process. *)
Definition fixSgf (weightFile : string) (resignation : bool) (g : Game)
           (file : option string) (writable : bool) (w : World)
  : bool * option string * World :=
  match file with
  | None => (false, file, w)
  | Some sgfData =>
      let sgfData :=
        replace (matchLiteral "PW[Human]") (playerTag weightFile sgfData) sgfData in
      let '(sgfData, w) :=
        if resignation then (fixSgfResignation sgfData, w)
        else if m_scoreEarly g then
          let '(mean, w) := getScoreEstimateMean lib w in
          let newResult :=
            if negb (F32.eqb mean F32.zero) then
              "RE[" ++ ((if F32.ltb F32.zero mean then "B+" else "W+")
                        ++ setNum_f3 lib (F32.abs mean) ++ "] ")
            else "RE[0] " in
          (replace (matchTag "RE[") newResult sgfData, w)
        else (sgfData, w) in
      (true, if writable then Some sgfData else file, w)
  end.

End FixSgf.

(* ------------------------------------------------------------------ *)
(** ** [FastState]

    [FullBoard], the Zobrist tables, the rule set and the vertex constants
    are declared in other files; they are parameters here.  Of the board,
    [m_hash] (64 bits) and [m_tomove] are read and written directly, the
    rest is reached through its member functions. *)

Module FastState.

Inductive Rules := CHINESE | JAPANESE.

Definition SIZE_MAX1 : Z := 18446744073709551616.

Section WithBoard.

Variable Squares : Type.

Record FullBoard := mkBoard {
  m_hash : Z;
  m_tomove : Z;
  squares : Squares
}.

(** [FullBoard::update_board]: the board afterwards and the ko square. *)
Variable update_board : FullBoard -> Z -> Z -> FullBoard * Z.
(** [FullBoard::reset_board] and [get_boardsize] *)
Variable reset_board_size : FullBoard -> Z -> FullBoard.
Variable get_boardsize : FullBoard -> Z.
(** [get_square(vertex) == FastBoard::EMPTY] and [is_suicide] *)
Variable square_is_empty : FullBoard -> Z -> bool.
Variable is_suicide : FullBoard -> Z -> Z -> bool.
(** [get_passPassPosition() == NULL] and [set_passPassPosition] *)
Variable passPassPosition_is_null : FullBoard -> bool.
Variable set_passPassPosition : FullBoard -> FullBoard.
(** [FullBoard::set_to_move] *)
Variable board_set_to_move : FullBoard -> Z -> FullBoard.

Variable cfg_rules : Rules.
Variable PASS RESIGN : Z.
Variable zobrist_ko : Z -> Z.
Variable zobrist_pass : Z -> Z.
Variable zobrist_blacktomove : Z.

Record State := mkState {
  board : FullBoard;
  m_komi : F32.float;
  m_handicap : Z;
  m_passes : Z;
  m_komove : Z;
  m_movenum : Z;
  m_lastmove : Z;
  m_blunder_chosen : bool
}.

Definition with_board (b : FullBoard) (s : State) : State :=
  mkState b (m_komi s) (m_handicap s) (m_passes s) (m_komove s) (m_movenum s)
          (m_lastmove s) (m_blunder_chosen s).

Definition with_hash (h : Z) (s : State) : State :=
  with_board (mkBoard h (m_tomove (board s)) (squares (board s))) s.

Definition with_tomove (t : Z) (s : State) : State :=
  with_board (mkBoard (m_hash (board s)) t (squares (board s))) s.

Definition with_komove (k : Z) (s : State) : State :=
  mkState (board s) (m_komi s) (m_handicap s) (m_passes s) k (m_movenum s)
          (m_lastmove s) (m_blunder_chosen s).

(** [FastState::get_passes] and [set_passes] *)
Definition get_passes (s : State) : Z := m_passes s.

Definition set_passes (val : Z) (s : State) : State :=
  mkState (board s) (m_komi s) (m_handicap s) val (m_komove s) (m_movenum s)
          (m_lastmove s) (m_blunder_chosen s).

(** [FastState::init_game] *)
Definition init_game (size : Z) (komi : F32.float) (s : State) : State :=
  mkState (reset_board_size (board s) size) komi 0 0 0 0 0 (m_blunder_chosen s).

(** [FastState::reset_game] *)
Definition reset_game (s : State) : State :=
  mkState (reset_board_size (board s) (get_boardsize (board s)))
          (m_komi s) 0 0 0 0 0 (m_blunder_chosen s).

(** [FastState::is_move_legal] *)
Definition is_move_legal (color vertex : Z) (s : State) : bool :=
  ((vertex =? PASS) || (vertex =? RESIGN) ||
   (negb (vertex =? m_komove s) &&
    square_is_empty (board s) vertex &&
    negb (is_suicide (board s) vertex color)))%bool.

(** [FastState::increment_passes] *)
Definition increment_passes (s : State) : State :=
  let s := set_passes (Int.add (m_passes s) 1) s in
  let s :=
    if ((m_passes s =? 2) &&
        match cfg_rules with JAPANESE => true | CHINESE => false end &&
        passPassPosition_is_null (board s))%bool
    then set_passes 0 (with_board (set_passPassPosition (board s)) s)
    else s in
  if m_passes s >? 4 then set_passes 4 s else s.

(** [!color] as an [int] *)
Definition lnot (color : Z) : Z := if color =? 0 then 1 else 0.

(** [FastState::play_move(int color, int vertex)] *)
Definition play_move_color (color vertex : Z) (s : State) : State :=
  let s := with_hash (Z.lxor (m_hash (board s)) (zobrist_ko (m_komove s))) s in
  let s :=
    if vertex =? PASS then with_komove 0 s
    else
      let '(b, ko) := update_board (board s) color vertex in
      with_komove ko (with_board b s) in
  let s := with_hash (Z.lxor (m_hash (board s)) (zobrist_ko (m_komove s))) s in
  let s :=
    mkState (board s) (m_komi s) (m_handicap s) (m_passes s) (m_komove s)
            ((m_movenum s + 1) mod SIZE_MAX1) vertex false in
  let s :=
    if m_tomove (board s) =? color
    then with_hash (Z.lxor (m_hash (board s)) zobrist_blacktomove) s
    else s in
  let s := with_tomove (lnot color) s in
  let s := with_hash (Z.lxor (m_hash (board s)) (zobrist_pass (get_passes s))) s in
  let s := if vertex =? PASS then increment_passes s else set_passes 0 s in
  with_hash (Z.lxor (m_hash (board s)) (zobrist_pass (get_passes s))) s.

(** [FastState::play_move(int vertex)] *)
Definition play_move (vertex : Z) (s : State) : State :=
  play_move_color (m_tomove (board s)) vertex s.

(** The hash with the ko key, the pass key and the side-to-move key taken
    out again; [keyed] is the colour whose turn carries
    [zobrist_blacktomove]. *)
Definition position_key (keyed : Z) (s : State) : Z :=
  Z.lxor
    (Z.lxor (Z.lxor (m_hash (board s)) (zobrist_ko (m_komove s)))
            (zobrist_pass (m_passes s)))
    (if m_tomove (board s) =? keyed then zobrist_blacktomove else 0).

End WithBoard.

End FastState.

(** A stand-in board for sample runs of [FastState]: no squares, every
    board update reports the ko square 42. *)
Definition sampleUpdate (b : FastState.FullBoard unit) (color vertex : Z)
  : FastState.FullBoard unit * Z := (b, 42).

Definition sampleState (passes : Z) : FastState.State unit :=
  FastState.mkState unit (FastState.mkBoard unit 5 0 tt) F32.zero 0 passes 0 0 0 true.

(* ------------------------------------------------------------------ *)
(** ** Engine lines and what [readLine] delivers of them

    [readLine(readBuffer, 256)] returns at most 255 bytes of a line; the
    rest of a longer line is what the next call returns.  [deliveries line]
    lists what successive calls return of one line of engine output (its
    newline last). *)

Definition READ_BYTES : nat := 255.

Fixpoint chunks (size fuel : nat) (s : string) : list string :=
  match fuel with
  | O => []
  | S f =>
      match s with
      | EmptyString => []
      | _ => take size s :: chunks size f (drop size s)
      end
  end.

Definition deliveries (line : string) : list Event :=
  map (fun c => Line (Z.of_nat (String.length c)) c)
      (chunks READ_BYTES (String.length line) line).




(* ================================================================== *)
(** * Properties *)

(** ** Arithmetic on [int] *)

(** Closes [Int.in_range z] for a closed [z]. *)
Ltac int_range := vm_compute; split; discriminate.

Lemma wrap_id (z : Z) : Int.in_range z -> Int.wrap z = z.
Proof.
  unfold Int.in_range, Int.INT_MIN, Int.INT_MAX, Int.wrap. intros H.
  rewrite Z.mod_small by lia. lia.
Qed.

Lemma in_rangeb_spec (z : Z) : Int.in_rangeb z = true <-> Int.in_range z.
Proof.
  unfold Int.in_rangeb, Int.in_range.
  rewrite andb_true_iff, !Z.leb_le. tauto.
Qed.

Lemma add_one_id (z : Z) :
  Int.INT_MIN <= z < Int.INT_MAX -> Int.add z 1 = z + 1.
Proof.
  intros H. unfold Int.add. apply wrap_id.
  unfold Int.in_range, Int.INT_MIN, Int.INT_MAX in *. lia.
Qed.

Lemma board_cap (b : Z) :
  0 <= b <= 32767 -> Int.mul (Int.mul b b) 2 = 2 * (b * b).
Proof.
  intros H. unfold Int.mul.
  assert (Hsq : 0 <= b * b <= 32767 * 32767) by nia.
  rewrite (wrap_id (b * b)) by (unfold Int.in_range, Int.INT_MIN, Int.INT_MAX; lia).
  rewrite wrap_id by (unfold Int.in_range, Int.INT_MIN, Int.INT_MAX; lia).
  lia.
Qed.

(** ** Termination predicate *)

(** C1: for every match state, [checkGameEnd] holds iff the resignation
    flag is set, or the consecutive-pass count is greater than 1, or the
    move number is greater than 2 x BOARD_SIZE^2 (for a board dimension
    whose cap fits an [int]). *)
Theorem checkGameEnd_iff (BOARD_SIZE : Z) (g : Game) :
  0 <= BOARD_SIZE <= 32767 ->
  checkGameEnd BOARD_SIZE g = true <->
  m_resignation g = true \/ m_passes g > 1 \/
  m_moveNum g > 2 * (BOARD_SIZE * BOARD_SIZE).
Proof.
  intros Hb. unfold checkGameEnd.
  rewrite (board_cap BOARD_SIZE Hb).
  rewrite !orb_true_iff, !Z.gtb_gt. tauto.
Qed.

Lemma checkGameEnd_iff_witness :
  0 <= 19 <= 32767 /\
  (checkGameEnd 19 (set_passes 2 newGame) = true <->
   m_resignation (set_passes 2 newGame) = true \/
   m_passes (set_passes 2 newGame) > 1 \/
   m_moveNum (set_passes 2 newGame) > 2 * (19 * 19)).
Proof.
  split; [lia | apply (checkGameEnd_iff 19 (set_passes 2 newGame)); lia].
Defined.

(** ** Move tokens and the pass count *)

Lemma eatNewLine_line (w : World) (rc : Z) (buf : string) (rest : list Event) :
  incoming w = Line rc buf :: rest -> 0 <= rc ->
  eatNewLine w = (true, mkWorld rest (written w) (console w) (terminated w)).
Proof.
  intros Hin Hrc. unfold eatNewLine, waitReady, readLine. rewrite Hin. simpl.
  destruct (rc <? 0) eqn:E; [apply Z.ltb_lt in E; lia | reflexivity].
Qed.

(** Engine-driven mode: a well-formed move line followed by the blank
    terminator is processed, and the token decides the pass count. *)
Lemma readMove_passes (g : Game) (w : World) (rc rc2 : Z) (buf buf2 : string)
      (rest : list Event) :
  incoming w = Line rc buf :: Line rc2 buf2 :: rest ->
  3 < rc -> at0 buf = "="%char -> 0 <= rc2 ->
  Int.INT_MIN <= m_passes g < Int.INT_MAX ->
  exists g' w',
    readMove g w = (true, g', w') /\
    m_moveDone g' = simplified (remove 0 2 buf) /\
    (isPass (m_moveDone g') = true -> m_passes g' = m_passes g + 1) /\
    (isPass (m_moveDone g') = false -> isResign (m_moveDone g') = true ->
     m_passes g' = m_passes g) /\
    (isPass (m_moveDone g') = false -> isResign (m_moveDone g') = false ->
     m_passes g' = 0).
Proof.
  intros Hin Hrc Heq Hrc2 Hp.
  unfold readMove, readLine. rewrite Hin.
  destruct (rc <=? 3) eqn:E; [apply Z.leb_le in E; lia |].
  rewrite Heq, Ascii.eqb_refl. cbn [orb negb].
  erewrite eatNewLine_line by (simpl; eauto). cbn [negb].
  remember (simplified (remove 0 2 buf)) as tok eqn:Etok.
  cbn [m_moveDone set_moveDone].
  destruct (isPass tok) eqn:Epass; [| destruct (isResign tok) eqn:Eres];
    eexists _, _; (split; [reflexivity |]);
    cbn [m_moveDone m_passes set_passes set_blackResigned set_resignation
         set_moveDone];
    rewrite ?Epass, ?Eres;
    repeat split; try discriminate; auto.
  intros _. apply add_one_id, Hp.
Qed.

(** Replay mode: once the command is accepted, its third word decides the
    pass count. *)
Lemma setMove_passes (m tok : string) (g : Game) (w w1 : World) :
  sendGtpCommand m w = (true, w1) ->
  nth_error (split " " m) 2 = Some tok ->
  Int.INT_MIN <= m_passes g < Int.INT_MAX ->
  exists g',
    setMove m g w = (Returns (true, g'), w1) /\
    (isPass tok = true -> m_passes g' = m_passes g + 1) /\
    (isPass tok = false -> isResign tok = true -> m_passes g' = m_passes g) /\
    (isPass tok = false -> isResign tok = false -> m_passes g' = 0).
Proof.
  intros Hsend Htok Hp. unfold setMove. rewrite Hsend. cbn [negb]. rewrite Htok.
  destruct (isPass tok) eqn:Epass.
  - eexists. split; [reflexivity |].
    cbn [m_passes set_passes set_blackToMove set_moveNum].
    repeat split; try discriminate. intros _. apply add_one_id, Hp.
  - destruct (isResign tok) eqn:Eres.
    + destruct (nth_error (split " " m) 1) as [colour |] eqn:Ecol.
      * eexists. split; [reflexivity |].
        cbn [m_passes set_blackResigned set_resignation set_blackToMove
             set_moveNum].
        repeat split; try discriminate; auto.
      * destruct (split " " m) as [| a [| b l]]; discriminate.
    + eexists. split; [reflexivity |].
      cbn [m_passes set_passes set_blackToMove set_moveNum].
      repeat split; try discriminate; auto.
Qed.

(** C3 (amended): in engine-driven mode ([readMove]) and in replay mode
    ([setMove]), after a move token is processed the consecutive-pass count
    is the previous count plus 1 if the token is "pass" (case-insensitive),
    is unchanged if the token is "resign", and is 0 for every other
    token. *)
Theorem pass_count_after_token
        (g : Game) (w : World) (rc rc2 : Z) (buf buf2 : string)
        (rest : list Event) (m tok : string) (v v1 : World) :
  Int.INT_MIN <= m_passes g < Int.INT_MAX ->
  incoming w = Line rc buf :: Line rc2 buf2 :: rest ->
  3 < rc -> at0 buf = "="%char -> 0 <= rc2 ->
  sendGtpCommand m v = (true, v1) ->
  nth_error (split " " m) 2 = Some tok ->
  (exists g' w',
      readMove g w = (true, g', w') /\
      m_moveDone g' = simplified (remove 0 2 buf) /\
      (isPass (m_moveDone g') = true -> m_passes g' = m_passes g + 1) /\
      (isPass (m_moveDone g') = false -> isResign (m_moveDone g') = true ->
       m_passes g' = m_passes g) /\
      (isPass (m_moveDone g') = false -> isResign (m_moveDone g') = false ->
       m_passes g' = 0)) /\
  (exists g',
      setMove m g v = (Returns (true, g'), v1) /\
      (isPass tok = true -> m_passes g' = m_passes g + 1) /\
      (isPass tok = false -> isResign tok = true -> m_passes g' = m_passes g) /\
      (isPass tok = false -> isResign tok = false -> m_passes g' = 0)).
Proof.
  intros Hp Hin Hrc Heq Hrc2 Hsend Htok. split.
  - eapply readMove_passes; eauto.
  - eapply setMove_passes; eauto.
Qed.

Lemma pass_count_after_token_witness :
  (exists g' w',
      readMove (set_passes 1 newGame)
               (engineSays ["= pass" ++ newline; newline]) = (true, g', w') /\
      m_passes g' = 2) /\
  (exists g' w',
      setMove "play b pass" (set_passes 1 newGame)
              (engineSays ["= " ++ newline; newline]) = (Returns (true, g'), w') /\
      m_passes g' = 2).
Proof.
  destruct (pass_count_after_token
              (set_passes 1 newGame)
              (engineSays ["= pass" ++ newline; newline])
              7 1 ("= pass" ++ newline) newline []
              "play b pass" "pass"
              (engineSays ["= " ++ newline; newline])
              (snd (sendGtpCommand "play b pass"
                                   (engineSays ["= " ++ newline; newline]))))
    as [[g1 [w1 [R1 [R2 [R3 _]]]]] [g2 [S1 [S2 _]]]].
  - unfold Int.INT_MIN, Int.INT_MAX. simpl. lia.
  - reflexivity.
  - lia.
  - reflexivity.
  - lia.
  - reflexivity.
  - reflexivity.
  - split.
    + exists g1, w1. split; [exact R1 |].
      rewrite R3 by (rewrite R2; reflexivity). reflexivity.
    + exists g2. eexists. split; [exact S1 |].
      rewrite S2 by reflexivity. reflexivity.
Defined.

(** C3, as stated, fails on "resign": with one pass on record, a "resign"
    token is processed and the count is still 1, not 0. *)
Lemma resign_token_keeps_pass_count :
  exists g' w',
    readMove (set_passes 1 newGame)
             (engineSays ["= resign" ++ newline; newline]) = (true, g', w') /\
    isPass (m_moveDone g') = false /\
    m_passes g' = 1 /\ m_passes g' <> 0.
Proof.
  eexists _, _. split; [vm_compute; reflexivity |].
  repeat split. discriminate.
Qed.

(** C10: if the submission inside [setMove] fails ([sendGtpCommand] returns
    false), [setMove] returns false and the match state is the one it was
    called with: move number, pass count, resignation flag, resigning side
    and side to move keep their values. *)
Theorem setMove_rejected (m : string) (g : Game) (w : World) :
  fst (sendGtpCommand m w) = false ->
  exists g',
    setMove m g w = (Returns (false, g'), snd (sendGtpCommand m w)) /\
    g' = g /\
    m_moveNum g' = m_moveNum g /\
    m_passes g' = m_passes g /\
    m_resignation g' = m_resignation g /\
    m_blackResigned g' = m_blackResigned g /\
    m_blackToMove g' = m_blackToMove g.
Proof.
  intros Hsend. exists g. unfold setMove.
  destruct (sendGtpCommand m w) as [sent w1]. simpl in Hsend. subst sent.
  simpl. repeat split.
Qed.

Lemma setMove_rejected_witness :
  fst (sendGtpCommand "play b q99"
         (engineSays ["? illegal move" ++ newline; newline])) = false /\
  exists g',
    fst (setMove "play b q99" (set_passes 1 newGame)
           (engineSays ["? illegal move" ++ newline; newline]))
    = Returns (false, g') /\
    m_passes g' = 1.
Proof.
  split; [reflexivity |].
  destruct (setMove_rejected "play b q99" (set_passes 1 newGame)
              (engineSays ["? illegal move" ++ newline; newline]))
    as [g' [H [Hg _]]].
  - reflexivity.
  - exists g'. rewrite H. split; [reflexivity |]. rewrite Hg. reflexivity.
Defined.

(** ** Version gate *)

Lemma versionCount_exact (min0 min1 min2 : Z) (l : list string) :
  let d0 := component l 0 - min0 in
  let d1 := component l 1 - min1 in
  let d2 := component l 2 - min2 in
  Int.in_range d0 -> Int.in_range (d0 * 10000) ->
  Int.in_range d1 -> Int.in_range (d1 * 100) ->
  Int.in_range (d0 * 10000 + d1 * 100) ->
  Int.in_range d2 ->
  Int.in_range (d0 * 10000 + d1 * 100 + d2) ->
  versionCount (min0, min1, min2) l = d0 * 10000 + d1 * 100 + d2.
Proof.
  intros d0 d1 d2 H0 H0' H1 H1' H01 H2 Ht.
  unfold versionCount, Int.mul, Int.sub, Int.add.
  fold d0 d1 d2.
  rewrite (wrap_id d0 H0), (wrap_id _ H0'), (wrap_id d1 H1), (wrap_id _ H1'),
    (wrap_id _ H01), (wrap_id d2 H2), (wrap_id _ Ht).
  reflexivity.
Qed.

Lemma versionCount_patch_default (min0 min1 min2 : Z) (l : list string) :
  let major := toInt (nth 0 l EmptyString) in
  let minor := toInt (nth 1 l EmptyString) in
  let patch :=
    if (List.length l <? 3)%nat then 0 else toInt (nth 2 l EmptyString) in
  (2 <= List.length l)%nat ->
  Int.in_range (major - min0) -> Int.in_range ((major - min0) * 10000) ->
  Int.in_range (minor - min1) -> Int.in_range ((minor - min1) * 100) ->
  Int.in_range ((major - min0) * 10000 + (minor - min1) * 100) ->
  Int.in_range (patch - min2) ->
  Int.in_range
    ((major - min0) * 10000 + (minor - min1) * 100 + (patch - min2)) ->
  versionCount (min0, min1, min2)
    (if (List.length l <? 3)%nat then (l ++ ["0"])%list else l) =
  (major - min0) * 10000 + (minor - min1) * 100 + (patch - min2).
Proof.
  destruct l as [| a [| b [| c l]]]; cbv zeta; cbn [List.length]; intros Hlen.
  - exfalso. inversion Hlen.
  - exfalso. inversion Hlen as [| n H]. inversion H.
  - cbn [Nat.ltb Nat.leb app nth].
    apply (versionCount_exact min0 min1 min2 [a; b; "0"]).
  - cbn [Nat.ltb Nat.leb nth].
    apply (versionCount_exact min0 min1 min2 (a :: b :: c :: l)).
Qed.

Lemma version_0_17_refused :
  exists w', checkVersion (0, 18, 0) (engineSays ["= 0.17" ++ newline; newline])
             = Exited w'.
Proof. eexists. vm_compute. reflexivity. Qed.

Lemma version_0_18_0_accepted :
  exists w', checkVersion (0, 18, 0) (engineSays ["= 0.18.0" ++ newline; newline])
             = Continues tt w'.
Proof. eexists. vm_compute. reflexivity. Qed.

Lemma version_1_0_accepted :
  exists w', checkVersion (0, 18, 0) (engineSays ["= 1.0" ++ newline; newline])
             = Continues tt w'.
Proof. eexists. vm_compute. reflexivity. Qed.

(** C4: the version gate splits the response on '.', takes a missing patch
    component as 0, computes
    versionCount = (major-minMajor)*10000 + (minor-minMinor)*100 + (patch-minPatch)
    and ends the process exactly when versionCount is negative (for a
    response with a major and a minor component, the differences fitting an
    [int]); against (0,18,0), "0.17" is refused, "0.18.0" and "1.0" pass. *)
Theorem checkVersion_gate
        (min0 min1 min2 : Z) (w : World) (rc rc2 : Z) (buf buf2 : string)
        (rest : list Event) :
  let version_list := split "." (simplified (drop 2 buf)) in
  let major := toInt (nth 0 version_list EmptyString) in
  let minor := toInt (nth 1 version_list EmptyString) in
  let patch :=
    if (List.length version_list <? 3)%nat then 0
    else toInt (nth 2 version_list EmptyString) in
  let count := (major - min0) * 10000 + (minor - min1) * 100 + (patch - min2) in
  incoming w = Line rc buf :: Line rc2 buf2 :: rest ->
  3 < rc -> at0 buf = "="%char -> 0 <= rc2 ->
  (2 <= List.length version_list)%nat ->
  Int.in_range (major - min0) -> Int.in_range ((major - min0) * 10000) ->
  Int.in_range (minor - min1) -> Int.in_range ((minor - min1) * 100) ->
  Int.in_range ((major - min0) * 10000 + (minor - min1) * 100) ->
  Int.in_range (patch - min2) -> Int.in_range count ->
  versionCount (min0, min1, min2)
    (if (List.length version_list <? 3)%nat then (version_list ++ ["0"])%list
     else version_list) = count /\
  ((exists w', checkVersion (min0, min1, min2) w = Exited w') <-> count < 0) /\
  (exists w', checkVersion (0, 18, 0) (engineSays ["= 0.17" ++ newline; newline])
              = Exited w') /\
  (exists w', checkVersion (0, 18, 0) (engineSays ["= 0.18.0" ++ newline; newline])
              = Continues tt w') /\
  (exists w', checkVersion (0, 18, 0) (engineSays ["= 1.0" ++ newline; newline])
              = Continues tt w').
Proof.
  intros version_list major minor patch count
         Hin Hrc Heq Hrc2 Hlen H0 H0' H1 H1' H01 H2 Ht.
  assert (Hcount :
            versionCount (min0, min1, min2)
              (if (List.length version_list <? 3)%nat
               then (version_list ++ ["0"])%list else version_list) = count)
    by (apply versionCount_patch_default; assumption).
  split; [exact Hcount |].
  split.
  - assert (Hhash : Ascii.eqb (at0 buf) "#" = false) by (rewrite Heq; reflexivity).
    assert (Hmark : Ascii.eqb (at0 buf) "=" = true) by (rewrite Heq; reflexivity).
    assert (Hgate :
              versionGate (min0, min1, min2) (simplified (drop 2 buf)) =
              if count <? 0 then TooOld else Accepted).
    { unfold versionGate. fold version_list.
      destruct (List.length version_list <? 2)%nat eqn:E2;
        [apply Nat.ltb_lt in E2; lia |].
      rewrite Hcount. reflexivity. }
    clearbody count. clear Hcount H0 H0' H1 H1' H01 H2 Ht.
    clearbody patch minor major version_list.
    unfold checkVersion, waitReady, readLine. cbn [incoming write]. rewrite Hin.
    cbn [negb]. rewrite Hhash, Hmark.
    destruct (rc <=? 3) eqn:E; [apply Z.leb_le in E; lia |].
    cbn [orb negb]. rewrite Hgate.
    destruct (count <? 0) eqn:Ec.
    + apply Z.ltb_lt in Ec.
      split; [intros _; exact Ec | intros _; eexists; reflexivity].
    + apply Z.ltb_ge in Ec.
      erewrite eatNewLine_line by (cbn [incoming print]; eauto). cbn [negb].
      split; [intros [w' Hw]; discriminate | intros Hneg; lia].
  - split; [exact version_0_17_refused |].
    split; [exact version_0_18_0_accepted | exact version_1_0_accepted].
Qed.


Lemma checkVersion_gate_witness :
  versionCount (0, 18, 0) ["0"; "17"; "0"] = -100 /\
  ((exists w',
       checkVersion (0, 18, 0) (engineSays ["= 0.17" ++ newline; newline])
       = Exited w') <-> -100 < 0).
Proof.
  destruct (checkVersion_gate 0 18 0
              (engineSays ["= 0.17" ++ newline; newline])
              7 1 ("= 0.17" ++ newline) newline [])
    as [H1 [H2 _]].
  - reflexivity.
  - lia.
  - reflexivity.
  - lia.
  - vm_compute. apply le_n.
  - int_range.
  - int_range.
  - int_range.
  - int_range.
  - int_range.
  - int_range.
  - int_range.
  - split; [exact H1 | exact H2].
Defined.

(** ** Scoring *)

(** C2 (amended): when scoring runs with the resignation flag set, for
    either resigning side the winner is the side opposite the resigning
    side, the margin is the sentinel "Resign", no estimate is queried, and
    the value recorded after the margin is 1.000 when white resigned (black
    wins) and 0.000 when black resigned (white wins). *)
Theorem getScore_resignation
        (lib : Numerics) (scoreEarly : bool) (g : Game) (w : World) :
  m_resignation g = true ->
  exists g' w',
    getScore lib scoreEarly g w = (true, g', w') /\
    incoming w' = incoming w /\ written w' = written w /\
    (m_blackResigned g = true ->
     m_winner g' = Some "white" /\ getWinner g' = WHITE /\
     m_result g' = "W+Resign : 0.000") /\
    (m_blackResigned g = false ->
     m_winner g' = Some "black" /\ getWinner g' = BLACK /\
     m_result g' = "B+Resign : 1.000").
Proof.
  intros Hres. unfold getScore. rewrite Hres.
  destruct (m_blackResigned g) eqn:Eb;
    eexists _, _; (split; [reflexivity |]);
    repeat split; try discriminate; reflexivity.
Qed.

Lemma getScore_resignation_witness :
  exists g' w',
    getScore sampleNumerics true
             (set_blackResigned false (set_resignation true newGame))
             (engineSays []) = (true, g', w') /\
    m_winner g' = Some "black" /\ m_result g' = "B+Resign : 1.000".
Proof.
  destruct (getScore_resignation sampleNumerics true
              (set_blackResigned false (set_resignation true newGame))
              (engineSays []))
    as [g' [w' [H [_ [_ [_ Hb]]]]]].
  - reflexivity.
  - exists g', w'. split; [exact H |].
    destruct Hb as [Hw [_ Hr]]; [reflexivity |]. split; assumption.
Defined.

(** C2, as stated, fails when black is the resigning side: the value
    recorded in the result is 0.000, not 1.0. *)
Lemma black_resignation_records_zero :
  exists g' w',
    getScore sampleNumerics false
             (set_blackResigned true (set_resignation true newGame))
             (engineSays []) = (true, g', w') /\
    m_winner g' = Some "white" /\
    m_result g' = "W+Resign : 0.000" /\
    m_result g' <> "W+Resign : 1.000".
Proof.
  eexists _, _. split; [vm_compute; reflexivity |].
  repeat split. discriminate.
Qed.

Lemma final_score_example (lib : Numerics) :
  exists g' w',
    getScore lib false newGame (engineSays ["= B+12.500" ++ newline; newline])
    = (true, g', w') /\
    m_winner g' = Some "black" /\ m_result g' = "B+12.500 : 1.000".
Proof.
  eexists _, _. split; [reflexivity |]. split; reflexivity.
Qed.

(** C5 (amended): in final scoring, with [r] the trimmed response body, a
    leading 'B' gives winner black and records r followed by " : 1.000"; a
    leading 'W' gives winner white and records r followed by " : 0.000"; a
    leading '0' gives the neutral winner label "panda" and records r
    followed by " : 0.500".  The response "B+12.500" is recorded as
    "B+12.500 : 1.000". *)
Theorem getScore_final_score (lib : Numerics) (g : Game) (w : World) :
  m_resignation g = false ->
  let r := fst (sendGtpCommandForResponseTrimmed "final_score" w) in
  (at0 r = "B"%char ->
   exists g' w',
     getScore lib false g w = (true, g', w') /\
     m_winner g' = Some "black" /\ getWinner g' = BLACK /\
     m_result g' = r ++ " : 1.000") /\
  (at0 r = "W"%char ->
   exists g' w',
     getScore lib false g w = (true, g', w') /\
     m_winner g' = Some "white" /\ getWinner g' = WHITE /\
     m_result g' = r ++ " : 0.000") /\
  (at0 r = "0"%char ->
   exists g' w',
     getScore lib false g w = (true, g', w') /\
     m_winner g' = Some "panda" /\ getWinner g' = PANDA /\
     m_result g' = r ++ " : 0.500") /\
  (exists g' w',
     getScore lib false newGame (engineSays ["= B+12.500" ++ newline; newline])
     = (true, g', w') /\
     m_winner g' = Some "black" /\ m_result g' = "B+12.500 : 1.000").
Proof.
  intros Hres r. subst r.
  assert (Hbranch :
            forall c : ascii,
              at0 (fst (sendGtpCommandForResponseTrimmed "final_score" w)) = c ->
              getScore lib false g w =
              let '(r, w1) := sendGtpCommandForResponseTrimmed "final_score" w in
              let g1 := set_result r g in
              let g2 :=
                if Ascii.eqb c "W" then
                  set_result (r ++ " : 0.000") (set_winner (Some "white") g1)
                else if Ascii.eqb c "B" then
                  set_result (r ++ " : 1.000") (set_winner (Some "black") g1)
                else if Ascii.eqb c "0" then
                  set_result (r ++ " : 0.500") (set_winner (Some "panda") g1)
                else g1 in
              match m_winner g2 with
              | None =>
                  (false, g2,
                   print [Text "No winner found"; Endl]
                         (print [Text "Score: "; Text (m_result g2)] w1))
              | Some winner =>
                  (true, g2,
                   print [Text "Winner: "; Text winner; Endl]
                         (print [Text "Score: "; Text (m_result g2)] w1))
              end).
  { intros c Hc. unfold getScore. rewrite Hres.
    destruct (sendGtpCommandForResponseTrimmed "final_score" w) as [r w1].
    cbn [fst] in Hc. cbn [m_result set_result set_winner]. rewrite Hc.
    destruct (Ascii.eqb c "W"); [reflexivity |].
    destruct (Ascii.eqb c "B"); [reflexivity |].
    destruct (Ascii.eqb c "0"); reflexivity. }
  destruct (sendGtpCommandForResponseTrimmed "final_score" w) as [r w1].
  cbn [fst] in *.
  split; [| split; [| split]].
  - intros Hc. rewrite (Hbranch _ Hc). eexists _, _.
    split; [reflexivity |]. split; [reflexivity |]. split; reflexivity.
  - intros Hc. rewrite (Hbranch _ Hc). eexists _, _.
    split; [reflexivity |]. split; [reflexivity |]. split; reflexivity.
  - intros Hc. rewrite (Hbranch _ Hc). eexists _, _.
    split; [reflexivity |]. split; [reflexivity |]. split; reflexivity.
  - exact (final_score_example lib).
Qed.

Lemma getScore_final_score_witness :
  exists g' w',
    getScore sampleNumerics false newGame
             (engineSays ["= 0" ++ newline; newline]) = (true, g', w') /\
    m_winner g' = Some "panda" /\ getWinner g' = PANDA /\
    m_result g' = "0 : 0.500".
Proof.
  destruct (getScore_final_score sampleNumerics newGame
              (engineSays ["= 0" ++ newline; newline]))
    as [_ [_ [H0 _]]].
  - reflexivity.
  - apply H0. reflexivity.
Defined.

(** C5, as stated, fails on a leading 'W': the value recorded in the
    result is 0.000, not 1.0. *)
Lemma white_final_score_records_zero :
  exists g' w',
    getScore sampleNumerics false newGame
             (engineSays ["= W+3.5" ++ newline; newline]) = (true, g', w') /\
    m_winner g' = Some "white" /\
    m_result g' = "W+3.5 : 0.000" /\
    m_result g' <> "W+3.5 : 1.000".
Proof.
  eexists _, _. split; [vm_compute; reflexivity |].
  repeat split. discriminate.
Qed.

(** Order of a [float] against zero. *)
Lemma positive_not_zero (x : F32.float) :
  F32.ltb F32.zero x = true -> F32.eqb x F32.zero = false.
Proof.
  unfold F32.ltb, F32.eqb, F32.zero, SFltb, SFeqb.
  destruct x as [s | s | | s m e]; try destruct s; cbn [SFcompare]; congruence.
Qed.

Lemma negative_not_zero (x : F32.float) :
  F32.ltb x F32.zero = true ->
  F32.eqb x F32.zero = false /\ F32.ltb F32.zero x = false.
Proof.
  unfold F32.ltb, F32.eqb, F32.zero, SFltb, SFeqb.
  destruct x as [s | s | | s m e]; try destruct s; cbn [SFcompare];
    split; congruence.
Qed.

(** What [getScore] does in the early-estimate mode. *)
Lemma getScore_early_run (lib : Numerics) (g : Game) (w : World) :
  m_resignation g = false ->
  getScore lib true g w =
  let '(mean, w1) := getScoreEstimateMean lib w in
  let '(stdDev, w2) := getScoreEstimateStandardDeviation lib w1 in
  let tag :=
    if F32.eqb mean F32.zero then "0"
    else (if F32.ltb F32.zero mean then "B+" else "W+")
         ++ setNum_f3 lib (F32.abs mean) in
  (true,
   mkGame true (m_resignation g) (m_blackToMove g) (m_blackResigned g) (m_passes g)
          (m_moveNum g) (m_moveDone g) (Some "early")
          (tag ++ " : " ++ setNum_f3 lib (winRateOf lib mean stdDev)),
   print [Text "Winner: "; Text "early"; Endl] w2).
Proof.
  destruct g as [early resigned toMove blackResigned passes moveNum moveDone
                 winner result].
  cbn [m_resignation]. intros ->. unfold getScore. cbn [m_resignation].
  destruct (getScoreEstimateMean lib w) as [mean w1].
  destruct (getScoreEstimateStandardDeviation lib w1) as [stdDev w2].
  destruct (F32.eqb mean F32.zero); reflexivity.
Qed.

(** C6 (amended): in the early-estimate mode the winner label is "early"
    ([getWinner] gives [EARLY]) whatever the sign of the queried mean; the
    sign decides the result tag only: "B+" followed by |mean| with 3
    decimals for a positive mean, "W+" followed by |mean| for a negative
    mean, "0" for a mean equal to zero, each followed by " : " and the
    win rate with 3 decimals. *)
Theorem getScore_early (lib : Numerics) (g : Game) (w : World) :
  m_resignation g = false ->
  let mean := fst (getScoreEstimateMean lib w) in
  let stdDev :=
    fst (getScoreEstimateStandardDeviation lib
           (snd (getScoreEstimateMean lib w))) in
  let winRate := setNum_f3 lib (winRateOf lib mean stdDev) in
  exists g' w',
    getScore lib true g w = (true, g', w') /\
    m_winner g' = Some "early" /\ getWinner g' = EARLY /\
    m_scoreEarly g' = true /\
    (F32.ltb F32.zero mean = true ->
     m_result g' = "B+" ++ setNum_f3 lib (F32.abs mean) ++ " : " ++ winRate) /\
    (F32.ltb mean F32.zero = true ->
     m_result g' = "W+" ++ setNum_f3 lib (F32.abs mean) ++ " : " ++ winRate) /\
    (F32.eqb mean F32.zero = true -> m_result g' = "0 : " ++ winRate).
Proof.
  intros Hres mean stdDev winRate. subst winRate stdDev mean.
  rewrite (getScore_early_run lib g w Hres).
  destruct (getScoreEstimateMean lib w) as [mean w1].
  cbn [fst snd].
  destruct (getScoreEstimateStandardDeviation lib w1) as [stdDev w2].
  cbn [fst snd].
  pose proof (positive_not_zero mean) as Hpz.
  pose proof (negative_not_zero mean) as Hnz.
  eexists _, _.
  split; [reflexivity |]. split; [reflexivity |].
  split; [reflexivity |]. split; [reflexivity |].
  cbn [m_result].
  destruct (F32.eqb mean F32.zero) eqn:Ez;
    [| destruct (F32.ltb F32.zero mean) eqn:Ep].
  - split; [intros H; specialize (Hpz H); discriminate |].
    split; [intros H; destruct (Hnz H); discriminate | reflexivity].
  - split; [reflexivity |].
    split; [intros H; destruct (Hnz H); discriminate | discriminate].
  - split; [discriminate |]. split; [reflexivity | discriminate].
Qed.

Lemma getScore_early_witness :
  exists g' w',
    getScore sampleNumerics true newGame
             (engineSays ["= 12" ++ newline; newline; "= 3" ++ newline; newline])
    = (true, g', w') /\
    getWinner g' = EARLY /\
    m_result g' = "B+#.### : #.###".
Proof.
  destruct (getScore_early sampleNumerics newGame
              (engineSays ["= 12" ++ newline; newline; "= 3" ++ newline; newline]))
    as [g' [w' [H [_ [Hw [_ [Hb _]]]]]]].
  - reflexivity.
  - exists g', w'. split; [exact H |]. split; [exact Hw |].
    rewrite Hb by reflexivity. reflexivity.
Defined.

(** C6, as stated, fails on a positive mean: the engine estimates 12, the
    result tag starts with "B+", and the winner is "early", not black. *)
Lemma positive_mean_winner_is_early :
  exists g' w',
    getScore sampleNumerics true newGame
             (engineSays ["= 12" ++ newline; newline; "= 3" ++ newline; newline])
    = (true, g', w') /\
    F32.ltb F32.zero
      (fst (getScoreEstimateMean sampleNumerics
              (engineSays ["= 12" ++ newline; newline;
                           "= 3" ++ newline; newline]))) = true /\
    m_winner g' = Some "early" /\
    m_winner g' <> Some "black" /\
    getWinner g' = EARLY /\
    getWinner g' <> BLACK.
Proof.
  eexists _, _. split; [vm_compute; reflexivity |].
  split; [reflexivity |]. split; [reflexivity |]. split; [discriminate |].
  split; [reflexivity | discriminate].
Qed.





(** The win rate at a zero mean, for a positive standard deviation and an
    [exp] that maps -0 to 1: exactly one half. *)
Lemma winRateOf_zero_mean (lib : Numerics) (stdDev : F32.float) :
  exp lib (S754_zero true) = F32.one ->
  (stdDev = S754_infinity false \/
   exists m e, stdDev = S754_finite false m e) ->
  winRateOf lib F32.zero stdDev = S754_finite false 8388608 (-24).
Proof.
  intros Hexp Hpos. unfold winRateOf.
  assert (Harg : F32.div (F32.mul (F32.opp F32.zero) piOverSqrt3) stdDev
                 = S754_zero true)
    by (destruct Hpos as [-> | [m [e ->]]]; reflexivity).
  rewrite Harg, Hexp. reflexivity.
Qed.



(** ** Transcript correction *)

Lemma replaceFrom_no_match (matchAt : string -> option nat) (after s : string) :
  hasMatch matchAt s = false -> replaceFrom matchAt after 0 s = s.
Proof.
  induction s as [| c s IH]; intros H.
  - reflexivity.
  - cbn [hasMatch] in H. apply orb_false_iff in H. destruct H as [Hhere Hrest].
    cbn [replaceFrom].
    destruct (matchAt (String c s)) as [n |]; [discriminate |].
    rewrite (IH Hrest). reflexivity.
Qed.

Lemma greedyToBracket_positive (s : string) (n : nat) :
  greedyToBracket s = Some n -> (1 <= n)%nat.
Proof.
  destruct s as [| c s]; cbn [greedyToBracket]; [discriminate |].
  destruct (Ascii.eqb c LF); [discriminate |].
  destruct (greedyToBracket s).
  - intros [= <-]. apply le_n_S, Nat.le_0_l.
  - destruct (Ascii.eqb c "]"); [intros [= <-]; apply le_n | discriminate].
Qed.

Lemma matchTag_positive (prefix s : string) (n : nat) :
  matchTag prefix s = Some n -> exists k, n = S k.
Proof.
  unfold matchTag. destruct (startsWith s prefix); [| discriminate].
  destruct (greedyToBracket (drop (String.length prefix) s)) as [m |] eqn:E;
    [| discriminate].
  intros [= <-]. apply greedyToBracket_positive in E.
  destruct m as [| m]; [inversion E |].
  exists (String.length prefix + m)%nat. apply Nat.add_succ_r.
Qed.

(** Where a tag pattern matches, the replaced text carries the replacement. *)
Lemma replace_tag_inserts (prefix after s : string) :
  hasMatch (matchTag prefix) s = true ->
  exists before behind,
    replaceFrom (matchTag prefix) after 0 s = before ++ after ++ behind.
Proof.
  induction s as [| c s IH]; intros H.
  - cbn in H. unfold matchTag in H.
    destruct (startsWith EmptyString prefix);
      [destruct prefix; cbn in H; discriminate | discriminate].
  - cbn [hasMatch] in H. cbn [replaceFrom].
    destruct (matchTag prefix (String c s)) as [n |] eqn:E.
    + destruct (matchTag_positive _ _ _ E) as [k ->].
      exists EmptyString, (replaceFrom (matchTag prefix) after k s). reflexivity.
    + cbn [orb] in H. destruct (IH H) as [before [behind Hs]].
      exists (String c before), behind. rewrite Hs. reflexivity.
Qed.

Lemma toLower_eqb_refl (c : ascii) : Ascii.eqb (toLower c) (toLower c) = true.
Proof. apply Ascii.eqb_refl. Qed.

Lemma startsWithCI_append (a b : string) : startsWithCI (a ++ b) a = true.
Proof.
  induction a as [| x a IH]; cbn [append startsWithCI].
  - destruct b; reflexivity.
  - rewrite toLower_eqb_refl, IH. reflexivity.
Qed.

Lemma containsCI_middle (before a behind : string) :
  containsCI (before ++ a ++ behind) a = true.
Proof.
  induction before as [| x before IH].
  - cbn [append]. destruct (a ++ behind) eqn:E; cbn [containsCI];
      rewrite <- E, startsWithCI_append; reflexivity.
  - cbn [append containsCI]. rewrite IH. apply orb_true_r.
Qed.

(** C9 (amended): the resignation rewrite of [fixSgf] applies the primary
    (black-won) pattern first and the secondary (white-won) pattern only if
    the text then does not contain the canonical tag "RE[B+Resign] " (so
    not when the primary pattern matched), and replaces every ";W[tt])" by
    ")"; a transcript in which none of the three patterns occurs is left
    unchanged. *)
Theorem fixSgfResignation_rewrite (sgfData : string) :
  let primary := replace oldResult newResult sgfData in
  (containsCI primary newResult = true ->
   fixSgfResignation sgfData = replace lastpass ")" primary) /\
  (containsCI primary newResult = false ->
   fixSgfResignation sgfData =
   replace lastpass ")" (replace oldwResult newResult primary)) /\
  (hasMatch oldResult sgfData = true ->
   fixSgfResignation sgfData = replace lastpass ")" primary) /\
  (hasMatch oldResult sgfData = false ->
   hasMatch oldwResult sgfData = false ->
   hasMatch lastpass sgfData = false ->
   fixSgfResignation sgfData = sgfData).
Proof.
  intros primary. unfold fixSgfResignation. fold primary.
  split; [| split; [| split]].
  - intros H. rewrite H. reflexivity.
  - intros H. rewrite H. reflexivity.
  - intros Hb.
    destruct (replace_tag_inserts "RE[B+" newResult sgfData Hb)
      as [before [behind Hs]].
    assert (Hc : containsCI primary newResult = true).
    { subst primary. unfold replace, oldResult. rewrite Hs.
      apply containsCI_middle. }
    rewrite Hc. reflexivity.
  - intros Hb Hw Hp.
    assert (Hprimary : primary = sgfData)
      by (apply replaceFrom_no_match; exact Hb).
    rewrite Hprimary.
    assert (Hsecondary : replace oldwResult newResult sgfData = sgfData)
      by (apply replaceFrom_no_match; exact Hw).
    destruct (negb (containsCI sgfData newResult));
      rewrite ?Hsecondary; apply replaceFrom_no_match; exact Hp.
Qed.

Lemma fixSgfResignation_rewrite_witness :
  fixSgfResignation "(;GM[1]KM[7.5];B[aa];W[bb])" = "(;GM[1]KM[7.5];B[aa];W[bb])" /\
  fixSgfResignation ("(;GM[1]RE[W+0.5]" ++ newline ++ ";B[aa];W[tt])")
  = "(;GM[1]RE[B+Resign] " ++ newline ++ ";B[aa])".
Proof.
  split.
  - destruct (fixSgfResignation_rewrite "(;GM[1]KM[7.5];B[aa];W[bb])")
      as [_ [_ [_ H]]].
    apply H; reflexivity.
  - destruct (fixSgfResignation_rewrite
                ("(;GM[1]RE[W+0.5]" ++ newline ++ ";B[aa];W[tt])"))
      as [_ [H _]].
    rewrite H by reflexivity. reflexivity.
Defined.

(** C9, as stated, fails on idempotence: the rewrite turns a white-won
    transcript into one carrying the canonical tag, and applied to that
    transcript it changes the text again (the tag is matched by the primary
    pattern and replaced, which adds a space). *)
Lemma canonical_tag_rewritten_again :
  let original := "(;GM[1]KM[7.5]RE[W+0.5]" ++ newline ++ ";B[pd];W[tt])" in
  let corrected := "(;GM[1]KM[7.5]RE[B+Resign] " ++ newline ++ ";B[pd])" in
  fixSgfResignation original = corrected /\
  containsCI corrected newResult = true /\
  fixSgfResignation corrected
  = "(;GM[1]KM[7.5]RE[B+Resign]  " ++ newline ++ ";B[pd])" /\
  fixSgfResignation corrected <> corrected.
Proof.
  cbv zeta. split; [reflexivity |]. split; [reflexivity |].
  split; [reflexivity |]. vm_compute. discriminate.
Qed.

(* ================================================================== *)
(** * Further properties of the driver *)

(** ** Request/response framing *)

Lemma exchange_two_lines (cmd : string) (w : World) (rc rc2 : Z)
      (buf buf2 : string) (rest : list Event) :
  incoming w = Line rc buf :: Line rc2 buf2 :: rest ->
  exists w',
    sendGtpCommandForResponse cmd w = (buf, w') /\
    incoming w' = rest /\
    written w' = (written w ++ [(cmd ++ newline)%string])%list /\
    terminated w' = terminated w.
Proof.
  intros Hin.
  unfold sendGtpCommandForResponse, waitReady, readLine.
  cbn [incoming write]. rewrite Hin. cbn [negb].
  destruct ((rc <=? 0) || negb (Ascii.eqb (at0 buf) "="))%bool;
    unfold eatNewLine, waitReady, readLine, error, print;
    cbn [incoming written console terminated negb];
    destruct (rc2 <? 0); eexists; (split; [reflexivity |]);
    cbn [incoming written terminated]; repeat split.
Qed.

Lemma take_all (n : nat) (s : string) :
  (String.length s <= n)%nat -> take n s = s.
Proof.
  revert n. induction s as [| c s IH]; intros n H.
  - destruct n; reflexivity.
  - destruct n as [| n]; [inversion H |].
    cbn [take]. rewrite IH; [reflexivity |]. apply le_S_n. exact H.
Qed.

Lemma length_drop (n : nat) (s : string) :
  String.length (drop n s) = (String.length s - n)%nat.
Proof.
  revert s. induction n as [| n IH]; intros s.
  - cbn [drop]. symmetry. apply Nat.sub_0_r.
  - destruct s as [| c s]; [reflexivity |]. cbn [drop String.length].
    rewrite IH. reflexivity.
Qed.

Lemma length_zero (s : string) : String.length s = O -> s = EmptyString.
Proof. destruct s; [reflexivity | discriminate]. Qed.

Lemma chunks_empty (size fuel : nat) : chunks size fuel EmptyString = [].
Proof. destruct fuel; reflexivity. Qed.

(** A line that fits the buffer is one delivery. *)
Lemma chunks_short (size : nat) (s : string) :
  s <> EmptyString -> (String.length s <= size)%nat ->
  chunks size (String.length s) s = [s].
Proof.
  intros Hne Hlen. destruct s as [| c s]; [contradiction |].
  cbn [String.length chunks].
  rewrite (take_all size (String c s) Hlen).
  assert (Hd : drop size (String c s) = EmptyString).
  { apply length_zero. rewrite length_drop. apply Nat.sub_0_le. exact Hlen. }
  rewrite Hd, chunks_empty. reflexivity.
Qed.

(** A line of up to twice the buffer is two deliveries. *)
Lemma chunks_long (size : nat) (s : string) :
  (size < String.length s)%nat -> (String.length s <= size + size)%nat ->
  chunks size (String.length s) s = [take size s; drop size s].
Proof.
  intros Hlo Hhi.
  assert (Hdl : String.length (drop size s) = (String.length s - size)%nat)
    by apply length_drop.
  destruct s as [| c s]; [inversion Hlo |].
  cbn [String.length chunks]. f_equal.
  destruct (drop size (String c s)) as [| d rest] eqn:Ed.
  { cbn [String.length] in *. lia. }
  destruct (String.length s) as [| k] eqn:Ek.
  { cbn [String.length] in *. lia. }
  cbn [chunks].
  rewrite take_all by (cbn [String.length] in *; lia).
  assert (Hdd : drop size (String d rest) = EmptyString).
  { apply length_zero. rewrite length_drop. cbn [String.length] in *. lia. }
  rewrite Hdd, chunks_empty. reflexivity.
Qed.

(** X1: when the status line of an answer fits one [readLine] delivery (at
    most 255 bytes) and the terminator line follows, a command consumes
    exactly these two lines and writes exactly the command and a newline,
    and [sendGtpCommand] succeeds iff the status line starts with "= ": a
    refused command leaves the stream in step.  A status line of 256 to 510
    bytes takes both reads of the exchange, so the terminator line is left
    for the next command. *)
Theorem exchange_stays_in_step
        (cmd : string) (w : World) (status terminator : string)
        (rest : list Event) :
  status <> EmptyString ->
  terminator <> EmptyString ->
  (String.length terminator <= READ_BYTES)%nat ->
  incoming w = (deliveries status ++ deliveries terminator ++ rest)%list ->
  ((String.length status <= READ_BYTES)%nat ->
   exists w',
     sendGtpCommand cmd w = (startsWith status "= ", w') /\
     fst (sendGtpCommandForResponse cmd w) = status /\
     incoming w' = rest /\
     written w' = (written w ++ [(cmd ++ newline)%string])%list /\
     terminated w' = terminated w) /\
  ((READ_BYTES < String.length status)%nat ->
   (String.length status <= READ_BYTES + READ_BYTES)%nat ->
   exists w',
     sendGtpCommand cmd w = (startsWith (take READ_BYTES status) "= ", w') /\
     fst (sendGtpCommandForResponse cmd w) = take READ_BYTES status /\
     incoming w' = (deliveries terminator ++ rest)%list /\
     written w' = (written w ++ [(cmd ++ newline)%string])%list).
Proof.
  intros Hs Ht Htl Hin. split.
  - intros Hsl.
    unfold deliveries in Hin.
    rewrite (chunks_short READ_BYTES status Hs Hsl) in Hin.
    rewrite (chunks_short READ_BYTES terminator Ht Htl) in Hin.
    cbn [map app] in Hin.
    destruct (exchange_two_lines cmd w _ _ _ _ _ Hin) as [w' [Hx [Hi [Hw Hte]]]].
    exists w'. unfold sendGtpCommand. rewrite Hx.
    repeat split; assumption.
  - intros Hlo Hhi.
    unfold deliveries in Hin at 1.
    rewrite (chunks_long READ_BYTES status Hlo Hhi) in Hin.
    cbn [map app] in Hin.
    destruct (exchange_two_lines cmd w _ _ _ _ _ Hin) as [w' [Hx [Hi [Hw Hte]]]].
    exists w'. unfold sendGtpCommand. rewrite Hx.
    repeat split; assumption.
Qed.

Lemma exchange_stays_in_step_witness :
  exists w',
    sendGtpCommand "komi 7.5"
      (engineSays ["? syntax error" ++ newline; newline;
                   "= " ++ newline; newline]) = (false, w') /\
    incoming w' = [Line 3 ("= " ++ newline); Line 1 newline].
Proof.
  destruct (exchange_stays_in_step "komi 7.5"
              (engineSays ["? syntax error" ++ newline; newline;
                           "= " ++ newline; newline])
              ("? syntax error" ++ newline) newline
              [Line 3 ("= " ++ newline); Line 1 newline])
    as [H _].
  - discriminate.
  - discriminate.
  - unfold READ_BYTES. cbn [String.length append newline]. lia.
  - reflexivity.
  - destruct H as [w' [H [_ [Hi _]]]].
    + unfold READ_BYTES. cbn [String.length append newline]. lia.
    + exists w'. split; [exact H | exact Hi].
Defined.

Lemma sendGtpCommand_dead (cmd : string) (w : World) :
  waitReady w = false ->
  sendGtpCommandForResponse cmd w =
  ("PROCESS_DIED", error PROCESS_DIED (write (cmd ++ newline) w)).
Proof.
  intros Hdead. unfold sendGtpCommandForResponse.
  assert (Hw : waitReady (write (cmd ++ newline) w) = false) by exact Hdead.
  rewrite Hw. reflexivity.
Qed.

Lemma sendGtpCommand_dead_false (cmd : string) (w : World) :
  waitReady w = false ->
  fst (sendGtpCommand cmd w) = false /\
  incoming (snd (sendGtpCommand cmd w)) = incoming w.
Proof.
  intros Hdead. unfold sendGtpCommand.
  rewrite (sendGtpCommand_dead cmd w Hdead). split; reflexivity.
Qed.

(** X2: when the engine is not running, a command is answered by the text
    "PROCESS_DIED" and the process-died diagnostic, and every file command
    (printsgf, load/save training, loadsgf, dump training, dump debug)
    returns false. *)
Theorem commands_fail_on_dead_engine
        (fileName : string) (moves : Z) (g : Game) (w : World) :
  waitReady w = false ->
  (forall cmd,
      sendGtpCommandForResponse cmd w =
      ("PROCESS_DIED",
       print [Text "*ERROR*: "; Text "The 'leelaz' process died unexpected."; Endl]
             (write (cmd ++ newline) w))) /\
  fst (writeSgf fileName w) = false /\
  fst (loadTraining fileName w) = false /\
  fst (saveTraining fileName w) = false /\
  fst (loadSgf fileName w) = false /\
  fst (loadSgfMoves fileName moves w) = false /\
  fst (dumpTraining fileName g w) = false /\
  fst (dumpDebug fileName w) = false.
Proof.
  intros Hdead.
  split.
  { intros cmd. rewrite (sendGtpCommand_dead cmd w Hdead).
    unfold error, print. cbn [incoming written console terminated].
    rewrite <- app_assoc. reflexivity. }
  unfold writeSgf, loadTraining, saveTraining, loadSgf, loadSgfMoves,
    dumpTraining, dumpDebug.
  repeat split; apply sendGtpCommand_dead_false; exact Hdead.
Qed.

Lemma commands_fail_on_dead_engine_witness :
  fst (writeSgf "0a1b" (mkWorld [Gone] [] [] false)) = false /\
  fst (dumpTraining "0a1b" newGame (engineSays [])) = false.
Proof.
  split.
  - apply (commands_fail_on_dead_engine "0a1b" 0 newGame
             (mkWorld [Gone] [] [] false)). reflexivity.
  - apply (commands_fail_on_dead_engine "0a1b" 0 newGame (engineSays [])).
    reflexivity.
Defined.

(** ** Reading a move *)

(** X3: [readMove] never changes the move number or the side to move, and
    whenever it returns false the pass count, the resignation flag, the
    resigning side, the winner and the result are the ones it was called
    with. *)
Theorem readMove_failure_keeps_state (g : Game) (w : World) :
  let g' := snd (fst (readMove g w)) in
  m_moveNum g' = m_moveNum g /\
  m_blackToMove g' = m_blackToMove g /\
  (fst (fst (readMove g w)) = false ->
   m_passes g' = m_passes g /\
   m_resignation g' = m_resignation g /\
   m_blackResigned g' = m_blackResigned g /\
   m_winner g' = m_winner g /\
   m_result g' = m_result g /\
   m_scoreEarly g' = m_scoreEarly g).
Proof.
  unfold readMove.
  destruct (readLine w) as [[readCount readBuffer] w1].
  destruct ((readCount <=? 3) || negb (Ascii.eqb (at0 readBuffer) "="))%bool.
  - cbn [fst snd]. repeat split.
  - destruct (eatNewLine w1) as [ok w2]. destruct ok; cbn [negb fst snd].
    + cbn [m_moveDone set_moveDone].
      destruct (isPass (simplified (remove 0 2 readBuffer)));
        [| destruct (isResign (simplified (remove 0 2 readBuffer)))];
        (split; [reflexivity |]); (split; [reflexivity |]); discriminate.
    + repeat split.
Qed.

Lemma readMove_failure_keeps_state_witness :
  fst (fst (readMove (set_passes 1 newGame)
                     (engineSays ["? unknown" ++ newline; newline]))) = false /\
  m_passes (snd (fst (readMove (set_passes 1 newGame)
                               (engineSays ["? unknown" ++ newline; newline]))))
  = 1.
Proof.
  split; [reflexivity |].
  apply (readMove_failure_keeps_state (set_passes 1 newGame)
           (engineSays ["? unknown" ++ newline; newline])).
  reflexivity.
Defined.

(** The match state a processed token leaves, from the state before. *)
Lemma readMove_accepts (g : Game) (w : World) (rc rc2 : Z) (buf buf2 : string)
      (rest : list Event) :
  incoming w = Line rc buf :: Line rc2 buf2 :: rest ->
  3 < rc -> at0 buf = "="%char -> 0 <= rc2 ->
  exists w',
    readMove g w =
    (true,
     (let tok := simplified (remove 0 2 buf) in
      let g0 := set_moveDone tok g in
      if isPass tok then set_passes (Int.add (m_passes g) 1) g0
      else if isResign tok then
             set_blackResigned (m_blackToMove g) (set_resignation true g0)
           else set_passes 0 g0),
     w').
Proof.
  intros Hin Hrc Heq Hrc2.
  unfold readMove, readLine. rewrite Hin.
  destruct (rc <=? 3) eqn:E; [apply Z.leb_le in E; lia |].
  rewrite Heq, Ascii.eqb_refl. cbn [orb negb].
  erewrite eatNewLine_line by (simpl; eauto). cbn [negb].
  cbn [m_moveDone set_moveDone m_passes m_blackToMove].
  eexists. reflexivity.
Qed.

Lemma setMove_accepts (m tok : string) (g : Game) (w w1 : World) :
  sendGtpCommand m w = (true, w1) ->
  nth_error (split " " m) 2 = Some tok ->
  exists colour,
    nth_error (split " " m) 1 = Some colour /\
    setMove m g w =
    (Returns
       (true,
        (let g0 := set_moveNum (Int.add (m_moveNum g) 1) g in
         let g1 :=
           if isPass tok then set_passes (Int.add (m_passes g) 1) g0
           else if isResign tok then
                  set_blackResigned (equalCI colour "black")
                                    (set_resignation true g0)
                else set_passes 0 g0 in
         set_blackToMove (negb (m_blackToMove g)) g1)),
     w1).
Proof.
  intros Hsend Htok.
  destruct (nth_error (split " " m) 1) as [colour |] eqn:Ecol;
    [| destruct (split " " m) as [| a [| b l]]; discriminate].
  exists colour. split; [reflexivity |].
  unfold setMove. rewrite Hsend. cbn [negb]. rewrite Htok, Ecol.
  destruct (isPass tok); [reflexivity |].
  destruct (isResign tok); reflexivity.
Qed.

Lemma resign_is_not_pass (tok : string) : isResign tok = true -> isPass tok = false.
Proof.
  unfold isResign, isPass. destruct tok as [| c tok]; [discriminate |].
  cbn [equalCI]. intros H. apply andb_true_iff in H. destruct H as [Hc _].
  apply Ascii.eqb_eq in Hc. rewrite Hc. reflexivity.
Qed.

(** X4: replaying a move with [setMove] leaves the match state that the
    engine-driven cycle [move], [readMove], [nextMove] leaves for the same
    token (up to [m_moveDone], which only [readMove] records), provided the
    token is not "resign" and the match goes on after it. *)
Theorem replay_matches_engine_cycle
        (BOARD_SIZE : Z) (g : Game) (w0 w : World) (rc rc2 : Z)
        (buf buf2 : string) (rest : list Event) (m : string) (v v1 : World) :
  incoming w = Line rc buf :: Line rc2 buf2 :: rest ->
  3 < rc -> at0 buf = "="%char -> 0 <= rc2 ->
  sendGtpCommand m v = (true, v1) ->
  nth_error (split " " m) 2 = Some (simplified (remove 0 2 buf)) ->
  isResign (simplified (remove 0 2 buf)) = false ->
  checkGameEnd BOARD_SIZE (snd (fst (readMove (fst (move g w0)) w))) = false ->
  fst (fst (readMove (fst (move g w0)) w)) = true /\
  fst (setMove m g v) =
  Returns
    (true,
     set_moveDone (m_moveDone g)
       (snd (nextMove BOARD_SIZE (snd (fst (readMove (fst (move g w0)) w)))))).
Proof.
  intros Hin Hrc Heq Hrc2 Hsend Htok Hres Hend.
  destruct (readMove_accepts (fst (move g w0)) w rc rc2 buf buf2 rest
              Hin Hrc Heq Hrc2) as [w' Hread].
  destruct (setMove_accepts m _ g v v1 Hsend Htok) as [colour [_ Hset]].
  rewrite Hread in *. cbn [fst snd] in *.
  split; [reflexivity |].
  rewrite Hset. cbn [fst]. unfold nextMove. rewrite Hend. cbn [snd].
  cbv zeta. rewrite Hres.
  destruct (isPass (simplified (remove 0 2 buf))); reflexivity.
Qed.

Lemma replay_matches_engine_cycle_witness :
  fst (setMove "play b q16" newGame (engineSays ["= " ++ newline; newline])) =
  Returns
    (true,
     set_moveDone EmptyString
       (snd (nextMove 19
               (snd (fst (readMove
                            (fst (move newGame (engineSays [])))
                            (engineSays ["= q16" ++ newline; newline]))))))).
Proof.
  apply (replay_matches_engine_cycle 19 newGame (engineSays [])
           (engineSays ["= q16" ++ newline; newline])
           6 1 ("= q16" ++ newline) newline []
           "play b q16" (engineSays ["= " ++ newline; newline])
           (snd (sendGtpCommand "play b q16"
                                (engineSays ["= " ++ newline; newline])))).
  - reflexivity.
  - lia.
  - reflexivity.
  - lia.
  - reflexivity.
  - reflexivity.
  - reflexivity.
  - reflexivity.
Defined.

(** X5: a pass answered when at least one pass is on record ends the match:
    the pass is counted, the resignation flag is untouched, [checkGameEnd]
    holds for every board size and [nextMove] refuses to go on, leaving the
    state as it is. *)
Theorem pass_after_pass_ends_match
        (BOARD_SIZE : Z) (g : Game) (w : World) (rc rc2 : Z)
        (buf buf2 : string) (rest : list Event) :
  incoming w = Line rc buf :: Line rc2 buf2 :: rest ->
  3 < rc -> at0 buf = "="%char -> 0 <= rc2 ->
  isPass (simplified (remove 0 2 buf)) = true ->
  1 <= m_passes g < Int.INT_MAX ->
  exists g' w',
    readMove g w = (true, g', w') /\
    m_passes g' = m_passes g + 1 /\
    m_resignation g' = m_resignation g /\
    checkGameEnd BOARD_SIZE g' = true /\
    nextMove BOARD_SIZE g' = (false, g').
Proof.
  intros Hin Hrc Heq Hrc2 Hpass Hp.
  destruct (readMove_accepts g w rc rc2 buf buf2 rest Hin Hrc Heq Hrc2)
    as [w' Hread].
  cbv zeta in Hread. rewrite Hpass in Hread.
  eexists _, w'. split; [exact Hread |].
  assert (Hadd : Int.add (m_passes g) 1 = m_passes g + 1)
    by (apply add_one_id; unfold Int.INT_MIN, Int.INT_MAX in *; lia).
  assert (Hend : checkGameEnd BOARD_SIZE
                   (set_passes (Int.add (m_passes g) 1)
                      (set_moveDone (simplified (remove 0 2 buf)) g)) = true).
  { unfold checkGameEnd. cbn [m_passes m_resignation set_passes set_moveDone].
    rewrite Hadd.
    assert (Hgt : (m_passes g + 1 >? 1) = true) by (apply Z.gtb_gt; lia).
    rewrite Hgt. rewrite orb_true_r. reflexivity. }
  split; [cbn [m_passes set_passes]; exact Hadd |].
  split; [reflexivity |].
  split; [exact Hend |].
  unfold nextMove. rewrite Hend. reflexivity.
Qed.

Lemma pass_after_pass_ends_match_witness :
  exists g' w',
    readMove (set_passes 1 newGame)
             (engineSays ["= PASS" ++ newline; newline]) = (true, g', w') /\
    checkGameEnd 19 g' = true.
Proof.
  destruct (pass_after_pass_ends_match 19 (set_passes 1 newGame)
              (engineSays ["= PASS" ++ newline; newline])
              7 1 ("= PASS" ++ newline) newline [])
    as [g' [w' [H [_ [_ [He _]]]]]].
  - reflexivity.
  - lia.
  - reflexivity.
  - lia.
  - reflexivity.
  - unfold Int.INT_MAX. simpl. lia.
  - exists g', w'. split; assumption.
Defined.

(** ** From a resignation to the winner *)

Lemma getScore_resigned_winner
      (lib : Numerics) (scoreEarly : bool) (g : Game) (w : World) :
  m_resignation g = true ->
  fst (fst (getScore lib scoreEarly g w)) = true /\
  m_winner (snd (fst (getScore lib scoreEarly g w))) =
  Some (if m_blackResigned g then "white" else "black").
Proof.
  intros Hres. unfold getScore. rewrite Hres.
  destruct (m_blackResigned g); split; reflexivity.
Qed.

(** X6: in engine-driven mode a "resign" answer ends the match for every
    board size, [nextMove] then refuses to go on without changing the side
    to move, and scoring names the opponent of the side that was to move
    as the winner. *)
Theorem engine_resignation_decides_match
        (lib : Numerics) (BOARD_SIZE : Z) (scoreEarly : bool)
        (g : Game) (w : World) (rc rc2 : Z) (buf buf2 : string)
        (rest : list Event) :
  incoming w = Line rc buf :: Line rc2 buf2 :: rest ->
  3 < rc -> at0 buf = "="%char -> 0 <= rc2 ->
  isResign (simplified (remove 0 2 buf)) = true ->
  exists g' w',
    readMove g w = (true, g', w') /\
    m_passes g' = m_passes g /\
    checkGameEnd BOARD_SIZE g' = true /\
    nextMove BOARD_SIZE g' = (false, g') /\
    m_blackToMove g' = m_blackToMove g /\
    fst (fst (getScore lib scoreEarly g' w')) = true /\
    m_winner (snd (fst (getScore lib scoreEarly g' w'))) =
    Some (if m_blackToMove g then "white" else "black").
Proof.
  intros Hin Hrc Heq Hrc2 Hres.
  destruct (readMove_accepts g w rc rc2 buf buf2 rest Hin Hrc Heq Hrc2)
    as [w' Hread].
  cbv zeta in Hread. rewrite (resign_is_not_pass _ Hres), Hres in Hread.
  eexists _, w'. split; [exact Hread |].
  split; [reflexivity |].
  assert (Hend : checkGameEnd BOARD_SIZE
                   (set_blackResigned (m_blackToMove g)
                      (set_resignation true
                         (set_moveDone (simplified (remove 0 2 buf)) g))) = true)
    by reflexivity.
  split; [exact Hend |].
  split; [unfold nextMove; rewrite Hend; reflexivity |].
  split; [reflexivity |].
  apply getScore_resigned_winner. reflexivity.
Qed.

Lemma engine_resignation_decides_match_witness :
  exists g' w',
    readMove newGame (engineSays ["= resign" ++ newline; newline])
    = (true, g', w') /\
    m_winner (snd (fst (getScore sampleNumerics false g' w'))) = Some "white".
Proof.
  destruct (engine_resignation_decides_match sampleNumerics 19 false newGame
              (engineSays ["= resign" ++ newline; newline])
              9 1 ("= resign" ++ newline) newline [])
    as [g' [w' [H [_ [_ [_ [_ [_ Hw]]]]]]]].
  - reflexivity.
  - lia.
  - reflexivity.
  - lia.
  - reflexivity.
  - exists g', w'. split; [exact H | exact Hw].
Defined.

(** X7: in replay mode the resigning side is read off the second word of
    the command: black resigned exactly when that word is "black"
    (case-insensitive), so scoring names white as the winner for "black"
    and black for every other colour word, the short form "b" included. *)
Theorem replayed_resignation_winner
        (lib : Numerics) (scoreEarly : bool) (m tok : string)
        (g : Game) (w w1 v : World) :
  sendGtpCommand m w = (true, w1) ->
  nth_error (split " " m) 2 = Some tok ->
  isResign tok = true ->
  exists colour g',
    nth_error (split " " m) 1 = Some colour /\
    setMove m g w = (Returns (true, g'), w1) /\
    m_resignation g' = true /\
    m_blackResigned g' = equalCI colour "black" /\
    m_passes g' = m_passes g /\
    fst (fst (getScore lib scoreEarly g' v)) = true /\
    m_winner (snd (fst (getScore lib scoreEarly g' v))) =
    Some (if equalCI colour "black" then "white" else "black").
Proof.
  intros Hsend Htok Hres.
  destruct (setMove_accepts m tok g w w1 Hsend Htok) as [colour [Hcol Hset]].
  cbv zeta in Hset. rewrite (resign_is_not_pass _ Hres), Hres in Hset.
  exists colour. eexists. split; [exact Hcol |]. split; [exact Hset |].
  split; [reflexivity |]. split; [reflexivity |]. split; [reflexivity |].
  apply getScore_resigned_winner. reflexivity.
Qed.

Lemma replayed_resignation_winner_witness :
  exists g' w1,
    setMove "play b resign" newGame (engineSays ["= " ++ newline; newline])
    = (Returns (true, g'), w1) /\
    m_blackResigned g' = false /\
    m_winner (snd (fst (getScore sampleNumerics false g' (engineSays []))))
    = Some "black".
Proof.
  destruct (replayed_resignation_winner sampleNumerics false
              "play b resign" "resign" newGame
              (engineSays ["= " ++ newline; newline])
              (snd (sendGtpCommand "play b resign"
                      (engineSays ["= " ++ newline; newline])))
              (engineSays []))
    as [colour [g' [Hc [Hs [_ [Hb [_ [_ Hw]]]]]]]].
  - reflexivity.
  - reflexivity.
  - reflexivity.
  - assert (Ecol : colour = "b") by (cbn in Hc; congruence).
    subst colour. exists g'. eexists. split; [exact Hs |].
    split; [exact Hb | exact Hw].
Defined.

(** ** Final scoring without a verdict *)

(** X8: without resignation, final scoring returns false exactly when the
    trimmed response starts with none of 'W', 'B', '0' and no winner was
    recorded before; when the response starts with none of them, a winner
    recorded earlier is kept and the response is recorded as it is. *)
Theorem final_score_without_verdict (lib : Numerics) (g : Game) (w : World) :
  m_resignation g = false ->
  let r := fst (sendGtpCommandForResponseTrimmed "final_score" w) in
  let g' := snd (fst (getScore lib false g w)) in
  (fst (fst (getScore lib false g w)) = false <->
   at0 r <> "W"%char /\ at0 r <> "B"%char /\ at0 r <> "0"%char /\
   m_winner g = None) /\
  (at0 r <> "W"%char -> at0 r <> "B"%char -> at0 r <> "0"%char ->
   m_winner g' = m_winner g /\ m_result g' = r).
Proof.
  intros Hres r g'. subst r g'. unfold getScore. rewrite Hres.
  destruct (sendGtpCommandForResponseTrimmed "final_score" w) as [r w1].
  cbn [fst snd m_result set_result].
  destruct (Ascii.eqb (at0 r) "W") eqn:EW.
  { apply Ascii.eqb_eq in EW. cbn [m_winner set_winner set_result fst].
    split; [split; [discriminate | intros [H _]; contradiction] |].
    intros H; contradiction. }
  destruct (Ascii.eqb (at0 r) "B") eqn:EB.
  { apply Ascii.eqb_eq in EB. cbn [m_winner set_winner set_result fst].
    split; [split; [discriminate | intros [_ [H _]]; contradiction] |].
    intros _ H; contradiction. }
  destruct (Ascii.eqb (at0 r) "0") eqn:E0.
  { apply Ascii.eqb_eq in E0. cbn [m_winner set_winner set_result fst].
    split; [split; [discriminate | intros [_ [_ [H _]]]; contradiction] |].
    intros _ _ H; contradiction. }
  apply Ascii.eqb_neq in EW, EB, E0.
  cbn [m_winner set_result].
  destruct (m_winner g) as [winner |] eqn:Ewin; cbn [fst snd m_winner set_result m_result].
  - split; [split; [discriminate | intros [_ [_ [_ H]]]; discriminate] |].
    intros _ _ _. rewrite Ewin. split; reflexivity.
  - split; [split; [intros _; repeat split; assumption | reflexivity] |].
    intros _ _ _. rewrite Ewin. split; reflexivity.
Qed.

Lemma final_score_without_verdict_witness :
  fst (fst (getScore sampleNumerics false newGame (mkWorld [Gone] [] [] false)))
  = false.
Proof.
  apply (final_score_without_verdict sampleNumerics newGame
           (mkWorld [Gone] [] [] false)).
  - reflexivity.
  - repeat split; discriminate.
Defined.

(** ** The handshake *)

(** X9: one leading comment line is echoed without its last character and
    skipped: the handshake then runs as it does on the lines that follow,
    with the echo already on the console. *)
Theorem version_comment_skipped
        (min_version : VersionTuple) (w : World) (rc0 rc : Z) (c0 buf : string)
        (rest : list Event) :
  incoming w = Line rc0 c0 :: Line rc buf :: rest ->
  at0 c0 = "#"%char -> at0 buf <> "#"%char ->
  checkVersion min_version w =
  checkVersion min_version
    (mkWorld (Line rc buf :: rest) (written w)
             (console w ++ [Text (take (Z.to_nat (rc0 - 1)) c0); Endl])
             (terminated w)).
Proof.
  intros Hin Hhash Hbuf.
  assert (E0 : Ascii.eqb (at0 c0) "#" = true) by (rewrite Hhash; reflexivity).
  assert (E1 : Ascii.eqb (at0 buf) "#" = false) by (apply Ascii.eqb_neq; exact Hbuf).
  unfold checkVersion, waitReady, readLine.
  cbn [incoming written console terminated write print negb]. rewrite Hin.
  cbn [incoming written console terminated negb]. rewrite E0, E1.
  cbn [incoming written console terminated negb]. reflexivity.
Qed.

Lemma version_comment_skipped_witness :
  exists w',
    checkVersion (0, 18, 0)
      (engineSays ["# tuning" ++ newline; "= 0.18.1" ++ newline; newline])
    = Continues tt w' /\
    console w' = [Text "# tuning"; Endl].
Proof.
  rewrite (version_comment_skipped (0, 18, 0)
             (engineSays ["# tuning" ++ newline; "= 0.18.1" ++ newline; newline])
             9 9 ("# tuning" ++ newline) ("= 0.18.1" ++ newline)
             [Line 1 newline]).
  - eexists. split; reflexivity.
  - reflexivity.
  - reflexivity.
  - discriminate.
Defined.

(** X10: a second leading comment line is not skipped: the handshake takes
    it for the answer and ends the process with the GTP error. *)
Theorem second_version_comment_is_fatal
        (min_version : VersionTuple) (w : World) (rc0 rc1 : Z) (c0 c1 : string)
        (rest : list Event) :
  incoming w = Line rc0 c0 :: Line rc1 c1 :: rest ->
  at0 c0 = "#"%char -> at0 c1 = "#"%char ->
  exists w',
    checkVersion min_version w = Exited w' /\
    incoming w' = rest /\
    console w' =
    (console w ++ [Text (take (Z.to_nat (rc0 - 1)) c0); Endl;
                   Text "GTP: "; Text c1; Endl;
                   Text "*ERROR*: "; Text "Error in GTP response."; Endl])%list.
Proof.
  intros Hin H0 H1.
  assert (E0 : Ascii.eqb (at0 c0) "#" = true) by (rewrite H0; reflexivity).
  assert (E1 : Ascii.eqb (at0 c1) "=" = false) by (rewrite H1; reflexivity).
  unfold checkVersion, waitReady, readLine.
  cbn [incoming written console terminated write print negb]. rewrite Hin.
  cbn [incoming written console terminated negb]. rewrite E0.
  cbn [incoming written console terminated negb]. rewrite E1.
  rewrite orb_true_r.
  eexists. split; [reflexivity |]. split; [reflexivity |].
  unfold error, print. cbn [console]. rewrite <- !app_assoc. reflexivity.
Qed.

Lemma second_version_comment_is_fatal_witness :
  exists w',
    checkVersion (0, 18, 0)
      (engineSays ["# one" ++ newline; "# two" ++ newline;
                   "= 0.18.1" ++ newline; newline])
    = Exited w'.
Proof.
  destruct (second_version_comment_is_fatal (0, 18, 0)
              (engineSays ["# one" ++ newline; "# two" ++ newline;
                           "= 0.18.1" ++ newline; newline])
              6 6 ("# one" ++ newline) ("# two" ++ newline)
              [Line 9 ("= 0.18.1" ++ newline); Line 1 newline])
    as [w' [H _]].
  - reflexivity.
  - reflexivity.
  - reflexivity.
  - exists w'. exact H.
Defined.

Lemma in_range_of_bounds (z : Z) :
  -2000010000 <= z <= 2000010000 -> Int.in_range z.
Proof. unfold Int.in_range, Int.INT_MIN, Int.INT_MAX. lia. Qed.

(** X11: while minor and patch numbers stay below 100 (and major numbers
    below 200000), the version gate is the lexicographic comparison of
    (major, minor, patch) with the minimum version, a missing patch
    counting as 0. *)
Theorem version_gate_is_lexicographic
        (min0 min1 min2 : Z) (version_buff : string) :
  let version_list := split "." version_buff in
  let major := toInt (nth 0 version_list EmptyString) in
  let minor := toInt (nth 1 version_list EmptyString) in
  let patch :=
    if (List.length version_list <? 3)%nat then 0
    else toInt (nth 2 version_list EmptyString) in
  (2 <= List.length version_list)%nat ->
  0 <= major <= 200000 -> 0 <= min0 <= 200000 ->
  0 <= minor <= 99 -> 0 <= min1 <= 99 ->
  0 <= patch <= 99 -> 0 <= min2 <= 99 ->
  versionGate (min0, min1, min2) version_buff = Accepted <->
  major > min0 \/
  (major = min0 /\ (minor > min1 \/ (minor = min1 /\ patch >= min2))).
Proof.
  intros version_list major minor patch Hlen HM Hm0 Hmi Hm1 Hp Hm2.
  assert (Hcount :
            versionCount (min0, min1, min2)
              (if (List.length version_list <? 3)%nat
               then (version_list ++ ["0"])%list else version_list) =
            (major - min0) * 10000 + (minor - min1) * 100 + (patch - min2)).
  { apply versionCount_patch_default; try exact Hlen;
      apply in_range_of_bounds; fold major minor patch; lia. }
  unfold versionGate. fold version_list.
  destruct (List.length version_list <? 2)%nat eqn:E2;
    [apply Nat.ltb_lt in E2; lia |].
  rewrite Hcount.
  clearbody patch minor major. clear Hcount E2 Hlen. clearbody version_list.
  destruct ((major - min0) * 10000 + (minor - min1) * 100 + (patch - min2) <? 0)
           eqn:Ec.
  - apply Z.ltb_lt in Ec. split; [discriminate | intros H; exfalso; lia].
  - apply Z.ltb_ge in Ec. split; [intros _; lia | reflexivity].
Qed.

Lemma version_gate_is_lexicographic_witness :
  versionGate (0, 18, 0) "0.17.99" = Accepted <->
  0 > 0 \/ (0 = 0 /\ (17 > 18 \/ (17 = 18 /\ 99 >= 0))).
Proof.
  apply (version_gate_is_lexicographic 0 18 0 "0.17.99");
    vm_compute; try (split; discriminate). apply le_S, le_n.
Defined.

(** Every exchange writes one line, the command, whatever the engine does. *)
Lemma exchange_writes_once (cmd : string) (w : World) :
  written (snd (sendGtpCommandForResponse cmd w)) =
  (written w ++ [(cmd ++ newline)%string])%list.
Proof.
  unfold sendGtpCommandForResponse, waitReady, readLine.
  cbn [incoming write].
  destruct (incoming w) as [| [| rc buf] rest]; [reflexivity | reflexivity |].
  cbn [negb].
  destruct ((rc <=? 0) || negb (Ascii.eqb (at0 buf) "="))%bool;
    unfold eatNewLine, waitReady, readLine;
    cbn [incoming written console terminated error print];
    destruct rest as [| [| rc2 buf2] rest]; cbn [negb];
    try reflexivity; destruct (rc2 <? 0); reflexivity.
Qed.

(** X12: once the process has started, [gameStart] never returns false: it
    ends the process when the handshake does, and otherwise returns true
    after sending the time settings, whatever the engine answers to them. *)
Theorem gameStart_after_launch (min_version : VersionTuple) (w : World) :
  (forall w', gameStart true min_version w <> Continues false w') /\
  (forall w1, checkVersion min_version w = Exited w1 ->
              gameStart true min_version w = Exited w1) /\
  (forall w1, checkVersion min_version w = Continues tt w1 ->
              exists w2,
                gameStart true min_version w = Continues true w2 /\
                written w2 =
                (written w1 ++ [("time_settings 0 1 0" ++ newline)%string])%list).
Proof.
  unfold gameStart. cbn [negb].
  destruct (checkVersion min_version w) as [[] w1 | w1].
  - split; [| split].
    + intros w'. destruct (sendGtpCommand "time_settings 0 1 0" _). discriminate.
    + discriminate.
    + intros w0 [= <-].
      pose proof (exchange_writes_once "time_settings 0 1 0"
                    (print [Text "Engine has started."; Endl] w1)) as Hw.
      unfold sendGtpCommand.
      destruct (sendGtpCommandForResponse "time_settings 0 1 0"
                  (print [Text "Engine has started."; Endl] w1)) as [r w2].
      eexists. split; [reflexivity |]. exact Hw.
  - split; [| split].
    + discriminate.
    + intros w0 [= <-]. reflexivity.
    + discriminate.
Qed.

Lemma gameStart_after_launch_witness :
  exists w2,
    gameStart true (0, 18, 0)
      (engineSays ["= 0.18.1" ++ newline; newline; "? no" ++ newline; newline])
    = Continues true w2 /\
    written w2 = ["version" ++ newline; "time_settings 0 1 0" ++ newline].
Proof.
  destruct (gameStart_after_launch (0, 18, 0)
              (engineSays ["= 0.18.1" ++ newline; newline;
                           "? no" ++ newline; newline]))
    as [_ [_ H]].
  destruct (H (mkWorld [Line 5 ("? no" ++ newline); Line 1 newline]
                       ["version" ++ newline] [] false))
    as [w2 [Hg Hw]].
  - reflexivity.
  - exists w2. split; [exact Hg | exact Hw].
Defined.

(** ** Resuming at a move count *)

(** X13: after [setMovesCount n] the move number is [n] and black is to
    move exactly when [n] is even, also for a negative [n]; the next
    [move] asks the engine for that colour and counts one move more. *)
Theorem setMovesCount_then_move (moves : Z) (g : Game) (w : World) :
  let g1 := setMovesCount moves g in
  m_moveNum g1 = moves /\
  m_blackToMove g1 = Z.even moves /\
  written (snd (move g1 w)) =
  (written w ++ [((if Z.even moves then "genmove b" else "genmove w")
                  ++ newline)%string])%list /\
  (Int.INT_MIN <= moves < Int.INT_MAX ->
   m_moveNum (fst (move g1 w)) = moves + 1).
Proof.
  cbv zeta. unfold setMovesCount, move.
  cbn [m_moveNum m_blackToMove set_moveNum set_blackToMove fst snd written write].
  rewrite <- Zeven_rem.
  split; [reflexivity |]. split; [reflexivity |].
  split; [destruct (Z.even moves); reflexivity |].
  intros H. apply add_one_id. exact H.
Qed.

Lemma setMovesCount_then_move_witness :
  m_moveNum (fst (move (setMovesCount 7 newGame) (engineSays []))) = 8 /\
  written (snd (move (setMovesCount 7 newGame) (engineSays [])))
  = ["genmove w" ++ newline].
Proof.
  destruct (setMovesCount_then_move 7 newGame (engineSays []))
    as [_ [_ [Hw Hn]]].
  split; [apply Hn; unfold Int.INT_MIN, Int.INT_MAX; lia | exact Hw].
Defined.

(* ================================================================== *)
(** * Properties of [FastState] *)

Section FastStateFacts.

Variable Squares : Type.
Variable update_board :
  FastState.FullBoard Squares -> Z -> Z -> FastState.FullBoard Squares * Z.
Variable square_is_empty : FastState.FullBoard Squares -> Z -> bool.
Variable is_suicide : FastState.FullBoard Squares -> Z -> Z -> bool.
Variable passPassPosition_is_null : FastState.FullBoard Squares -> bool.
Variable set_passPassPosition :
  FastState.FullBoard Squares -> FastState.FullBoard Squares.
Variable cfg_rules : FastState.Rules.
Variable PASS RESIGN : Z.
Variable zobrist_ko zobrist_pass : Z -> Z.
Variable zobrist_blacktomove : Z.

Local Abbreviation play_move_color :=
  (FastState.play_move_color Squares update_board passPassPosition_is_null
     set_passPassPosition cfg_rules PASS zobrist_ko zobrist_pass
     zobrist_blacktomove).
Local Abbreviation increment_passes :=
  (FastState.increment_passes Squares passPassPosition_is_null
     set_passPassPosition cfg_rules).
Local Abbreviation is_move_legal :=
  (FastState.is_move_legal Squares square_is_empty is_suicide PASS RESIGN).
Local Abbreviation position_key :=
  (FastState.position_key Squares zobrist_ko zobrist_pass zobrist_blacktomove).
Local Abbreviation m_passes := (FastState.m_passes Squares).
Local Abbreviation m_komove := (FastState.m_komove Squares).
Local Abbreviation m_movenum := (FastState.m_movenum Squares).
Local Abbreviation m_lastmove := (FastState.m_lastmove Squares).
Local Abbreviation m_blunder_chosen := (FastState.m_blunder_chosen Squares).
Local Abbreviation m_komi := (FastState.m_komi Squares).
Local Abbreviation m_handicap := (FastState.m_handicap Squares).
Local Abbreviation board := (FastState.board Squares).
Local Abbreviation m_hash := (FastState.m_hash Squares).
Local Abbreviation m_tomove := (FastState.m_tomove Squares).

Lemma increment_passes_range (s : FastState.State Squares) :
  0 <= m_passes s <= 4 -> 0 <= m_passes (increment_passes s) <= 4.
Proof.
  intros H. unfold FastState.increment_passes.
  assert (Hadd : Int.add (m_passes s) 1 = m_passes s + 1)
    by (apply add_one_id; unfold Int.INT_MIN, Int.INT_MAX; lia).
  cbn [FastState.m_passes FastState.set_passes]. rewrite Hadd.
  destruct ((m_passes s + 1 =? 2) &&
            match cfg_rules with
            | FastState.CHINESE => false
            | FastState.JAPANESE => true
            end &&
            passPassPosition_is_null
              (FastState.board Squares
                 (FastState.set_passes Squares (m_passes s + 1) s)))%bool.
  - cbn. lia.
  - cbn [FastState.m_passes FastState.set_passes].
    destruct (m_passes s + 1 >? 4) eqn:E; cbn [FastState.m_passes FastState.set_passes].
    + lia.
    + rewrite Z.gtb_ltb in E. apply Z.ltb_ge in E. lia.
Qed.

Lemma increment_passes_frame (s : FastState.State Squares) :
  m_lastmove (increment_passes s) = m_lastmove s /\
  m_movenum (increment_passes s) = m_movenum s /\
  m_blunder_chosen (increment_passes s) = m_blunder_chosen s /\
  m_komi (increment_passes s) = m_komi s /\
  m_handicap (increment_passes s) = m_handicap s /\
  m_komove (increment_passes s) = m_komove s.
Proof.
  unfold FastState.increment_passes.
  cbn [FastState.m_passes FastState.set_passes FastState.board].
  destruct (_ && _ && _)%bool;
    cbn [FastState.m_passes FastState.set_passes FastState.with_board];
    destruct (_ >? 4); repeat split.
Qed.

(** X14: [play_move] records the vertex as the last move, counts the move
    (modulo 2^64) and clears the blunder flag; a move other than a pass
    resets the pass count to 0 and hands the turn to the other colour, a
    pass clears the ko square; a pass count within 0..4 stays within
    0..4, so the index into the pass keys stays in bounds. *)
Theorem play_move_bookkeeping (color vertex : Z) (s : FastState.State Squares) :
  let s' := play_move_color color vertex s in
  m_lastmove s' = vertex /\
  m_movenum s' = (m_movenum s + 1) mod FastState.SIZE_MAX1 /\
  m_blunder_chosen s' = false /\
  m_komi s' = m_komi s /\
  m_handicap s' = m_handicap s /\
  (vertex <> PASS ->
   m_passes s' = 0 /\ m_tomove (board s') = FastState.lnot color) /\
  (vertex = PASS -> m_komove s' = 0) /\
  (0 <= m_passes s <= 4 -> 0 <= m_passes s' <= 4).
Proof.
  cbv zeta. unfold FastState.play_move_color.
  destruct (vertex =? PASS) eqn:E.
  - apply Z.eqb_eq in E.
    match goal with
    | |- context [increment_passes ?x] => remember x as s1 eqn:Es1
    end.
    assert (Hs1 : m_passes s1 = m_passes s /\ m_lastmove s1 = vertex /\
                  m_movenum s1 = (m_movenum s + 1) mod FastState.SIZE_MAX1 /\
                  m_blunder_chosen s1 = false /\ m_komi s1 = m_komi s /\
                  m_handicap s1 = m_handicap s /\ m_komove s1 = 0).
    { subst s1.
      destruct (FastState.m_tomove Squares _ =? color); repeat split. }
    destruct Hs1 as [Hp [Hl [Hn [Hb [Hk [Hh Hko]]]]]].
    pose proof (increment_passes_range s1) as Hr. rewrite Hp in Hr.
    destruct (increment_passes_frame s1) as [F1 [F2 [F3 [F4 [F5 F6]]]]].
    cbn [FastState.with_hash FastState.with_board FastState.m_lastmove
         FastState.m_movenum FastState.m_blunder_chosen FastState.m_komi
         FastState.m_handicap FastState.m_passes FastState.m_komove].
    split; [congruence |]. split; [congruence |]. split; [congruence |].
    split; [congruence |]. split; [congruence |].
    split; [intros Hne; contradiction |].
    split; [intros _; congruence | exact Hr].
  - apply Z.eqb_neq in E.
    destruct (update_board _ color vertex) as [b ko].
    destruct (FastState.m_tomove Squares _ =? color);
      (split; [reflexivity |]); (split; [reflexivity |]);
      (split; [reflexivity |]); (split; [reflexivity |]);
      (split; [reflexivity |]);
      (split; [intros _; split; reflexivity |]);
      (split; [intros H; contradiction |]);
      intros _; cbn; lia.
Qed.

Ltac xor_bits :=
  apply Z.bits_inj'; intros n Hn; rewrite ?Z.lxor_spec, ?Z.bits_0;
  repeat match goal with
         | |- context [Z.testbit ?x n] => destruct (Z.testbit x n)
         end;
  reflexivity.

Lemma increment_passes_plain (s : FastState.State Squares) :
  cfg_rules = FastState.CHINESE \/ Int.add (m_passes s) 1 <> 2 ->
  increment_passes s =
  FastState.set_passes Squares
    (if Int.add (m_passes s) 1 >? 4 then 4 else Int.add (m_passes s) 1) s.
Proof.
  intros H. unfold FastState.increment_passes.
  cbn [FastState.m_passes FastState.set_passes FastState.board].
  assert (Hc : ((Int.add (m_passes s) 1 =? 2) &&
                match cfg_rules with
                | FastState.CHINESE => false
                | FastState.JAPANESE => true
                end)%bool = false).
  { destruct H as [-> | H]; [apply andb_false_r |].
    apply Z.eqb_neq in H. rewrite H. reflexivity. }
  rewrite Hc. cbn [andb FastState.m_passes FastState.set_passes].
  destruct (Int.add (m_passes s) 1 >? 4); reflexivity.
Qed.

(** X15: a pass changes the hash only through the ko key, the pass key and
    the side-to-move key: with these three keys taken out, the hash is the
    same before and after the pass (under Chinese rules, or when the pass
    is not the second in a row). *)
Theorem pass_keeps_position_key
        (keyed color : Z) (s : FastState.State Squares) :
  color = 0 \/ color = 1 ->
  m_tomove (board s) = 0 \/ m_tomove (board s) = 1 ->
  keyed = 0 \/ keyed = 1 ->
  cfg_rules = FastState.CHINESE \/ Int.add (m_passes s) 1 <> 2 ->
  position_key keyed (play_move_color color PASS s) = position_key keyed s.
Proof.
  intros Hc Ht Hk Hrules.
  unfold FastState.play_move_color. rewrite Z.eqb_refl.
  match goal with
  | |- context [increment_passes ?x] =>
      assert (Hp : m_passes x = m_passes s)
        by (cbn; destruct (_ =? color); reflexivity);
      rewrite (increment_passes_plain x) by (rewrite Hp; exact Hrules);
      rewrite Hp
  end.
  unfold FastState.position_key, FastState.get_passes, FastState.lnot.
  destruct s as [[h t sq] komi hc p k mn lm bl].
  cbn [FastState.board FastState.m_hash FastState.m_tomove FastState.m_passes
       FastState.m_komove FastState.squares] in *.
  destruct Hc as [-> | ->]; destruct Ht as [-> | ->]; destruct Hk as [-> | ->];
    cbn; xor_bits.
Qed.

(** X16: the ko square that a move leaves is not a legal move for either
    colour, unless it is the pass or the resign vertex, which are always
    legal. *)
Theorem ko_square_is_illegal
        (color vertex next : Z) (s : FastState.State Squares) :
  let s' := play_move_color color vertex s in
  is_move_legal next PASS s' = true /\
  is_move_legal next RESIGN s' = true /\
  (vertex <> PASS ->
   m_komove s' = snd (update_board
                        (FastState.mkBoard Squares
                           (Z.lxor (m_hash (board s)) (zobrist_ko (m_komove s)))
                           (m_tomove (board s))
                           (FastState.squares Squares (board s)))
                        color vertex)) /\
  (m_komove s' <> PASS -> m_komove s' <> RESIGN ->
   is_move_legal next (m_komove s') s' = false).
Proof.
  cbv zeta. unfold FastState.is_move_legal.
  rewrite !Z.eqb_refl, orb_true_r.
  split; [reflexivity |]. split; [reflexivity |].
  split.
  - intros Hne. apply Z.eqb_neq in Hne.
    unfold FastState.play_move_color. rewrite Hne.
    cbn [FastState.with_hash FastState.with_board FastState.board
         FastState.m_hash FastState.m_tomove FastState.squares FastState.m_komove].
    destruct (update_board _ color vertex) as [b ko].
    cbn. destruct (_ =? color); reflexivity.
  - intros Hp Hr. apply Z.eqb_neq in Hp, Hr. rewrite Hp, Hr. reflexivity.
Qed.

End FastStateFacts.

Lemma play_move_bookkeeping_witness :
  0 <= FastState.m_passes unit
         (FastState.play_move_color unit sampleUpdate (fun _ => true)
            (fun b => b) FastState.JAPANESE (-1) (fun k => k) (fun p => p) 7
            0 (-1) (sampleState 4)) <= 4.
Proof.
  apply (play_move_bookkeeping unit sampleUpdate (fun _ => true) (fun b => b)
           FastState.JAPANESE (-1) (fun k => k) (fun p => p) 7
           0 (-1) (sampleState 4)).
  simpl. lia.
Defined.

Lemma pass_keeps_position_key_witness :
  FastState.position_key unit (fun k => k + 100) (fun p => 2 * p + 1) 7 0
    (FastState.play_move_color unit sampleUpdate (fun _ => true) (fun b => b)
       FastState.CHINESE (-1) (fun k => k + 100) (fun p => 2 * p + 1) 7
       0 (-1) (sampleState 1))
  = FastState.position_key unit (fun k => k + 100) (fun p => 2 * p + 1) 7 0
      (sampleState 1).
Proof.
  apply (pass_keeps_position_key unit sampleUpdate (fun _ => true) (fun b => b)
           FastState.CHINESE (-1) (fun k => k + 100) (fun p => 2 * p + 1) 7
           0 0 (sampleState 1)).
  - left. reflexivity.
  - left. reflexivity.
  - left. reflexivity.
  - left. reflexivity.
Defined.

Lemma ko_square_is_illegal_witness :
  FastState.is_move_legal unit (fun _ _ => true) (fun _ _ _ => false) (-1) (-2)
    1 42
    (FastState.play_move_color unit sampleUpdate (fun _ => true) (fun b => b)
       FastState.CHINESE (-1) (fun k => k) (fun p => p) 7 0 33 (sampleState 0))
  = false.
Proof.
  apply (ko_square_is_illegal unit sampleUpdate (fun _ _ => true)
           (fun _ _ _ => false) (fun _ => true) (fun b => b)
           FastState.CHINESE (-1) (-2) (fun k => k) (fun p => p) 7
           0 33 1 (sampleState 0)); discriminate.
Defined.

(* ================================================================== *)
(** * Properties of the transcript correction as a whole *)

Lemma getScoreEstimateMean_written (lib : Numerics) (w : World) :
  written (snd (getScoreEstimateMean lib w)) =
  (written w ++ [("estimate_score_mean" ++ newline)%string])%list.
Proof.
  pose proof (exchange_writes_once "estimate_score_mean" w) as Hw.
  unfold getScoreEstimateMean, sendGtpCommandForResponseTrimmed.
  destruct (sendGtpCommandForResponse "estimate_score_mean" w) as [r w1].
  destruct (toFloat lib (trimmed (remove 0 2 r))) as [mean parse].
  destruct parse; exact Hw.
Qed.

(** X17: [fixSgf] returns false exactly when the transcript does not open,
    and then touches nothing; it talks to the engine only when the match
    was scored early and did not end by resignation, and then sends the
    single command "estimate_score_mean"; a file that does not open for
    writing keeps its text. *)
Theorem fixSgf_engine_traffic
        (lib : Numerics) (weightFile : string) (resignation : bool) (g : Game)
        (file : option string) (writable : bool) (w : World) :
  let r := fixSgf lib weightFile resignation g file writable w in
  (fst (fst r) = false <-> file = None) /\
  (file = None -> r = (false, None, w)) /\
  (resignation = true \/ m_scoreEarly g = false -> snd r = w) /\
  (file <> None -> resignation = false -> m_scoreEarly g = true ->
   written (snd r) =
   (written w ++ [("estimate_score_mean" ++ newline)%string])%list) /\
  (writable = false -> snd (fst r) = file).
Proof.
  cbv zeta. unfold fixSgf.
  destruct file as [sgfData |].
  - destruct resignation.
    + cbn [fst snd].
      split; [split; discriminate |]. split; [discriminate |].
      split; [reflexivity |]. split; [discriminate |].
      intros ->. reflexivity.
    + destruct (m_scoreEarly g).
      * pose proof (getScoreEstimateMean_written lib w) as Hw.
        destruct (getScoreEstimateMean lib w) as [mean w1]. cbn [fst snd] in *.
        split; [split; discriminate |]. split; [discriminate |].
        split; [intros [H | H]; discriminate |].
        split; [intros _ _ _; exact Hw |].
        intros ->. reflexivity.
      * cbn [fst snd].
        split; [split; discriminate |]. split; [discriminate |].
        split; [reflexivity |]. split; [discriminate |].
        intros ->. reflexivity.
  - cbn [fst snd].
    split; [split; reflexivity |]. split; [reflexivity |].
    split; [reflexivity |]. split; [intros H; contradiction | reflexivity].
Qed.

Lemma fixSgf_engine_traffic_witness :
  written (snd (fixSgf sampleNumerics "0123456789" false
                  (set_scoreEarly true newGame)
                  (Some "(;GM[1]RE[B+3])") true
                  (engineSays ["= 12" ++ newline; newline])))
  = ["estimate_score_mean" ++ newline].
Proof.
  apply (fixSgf_engine_traffic sampleNumerics "0123456789" false
           (set_scoreEarly true newGame)
           (Some "(;GM[1]RE[B+3])") true
           (engineSays ["= 12" ++ newline; newline])).
  - discriminate.
  - reflexivity.
  - reflexivity.
Defined.

(** X18: when the match was scored early and the mean queried by [fixSgf]
    does not parse (value 0.0), the GTP error is printed and every result
    tag of the transcript is overwritten with the neutral "RE[0] ". *)
Theorem fixSgf_early_parse_error
        (lib : Numerics) (weightFile sgfData : string) (g : Game) (w : World) :
  m_scoreEarly g = true ->
  toFloat lib (fst (sendGtpCommandForResponseTrimmed "estimate_score_mean" w))
  = (F32.zero, false) ->
  fixSgf lib weightFile false g (Some sgfData) true w =
  (true,
   Some (replace (matchTag "RE[") "RE[0] "
           (replace (matchLiteral "PW[Human]") (playerTag weightFile sgfData)
                    sgfData)),
   error WRONG_GTP
     (snd (sendGtpCommandForResponseTrimmed "estimate_score_mean" w))).
Proof.
  intros Hearly Hparse. unfold fixSgf. rewrite Hearly.
  unfold getScoreEstimateMean.
  destruct (sendGtpCommandForResponseTrimmed "estimate_score_mean" w) as [r w1].
  cbn [fst snd] in *. rewrite Hparse. reflexivity.
Qed.

Lemma fixSgf_early_parse_error_witness :
  fst (fixSgf sampleNumerics "0123456789" false (set_scoreEarly true newGame)
         (Some "(;GM[1]PW[Human]RE[B+3.5])") true
         (mkWorld [Gone] [] [] false))
  = (true, Some "(;GM[1]PW[Leela Zero 01234567]RE[0] )").
Proof.
  rewrite (fixSgf_early_parse_error sampleNumerics "0123456789"
             "(;GM[1]PW[Human]RE[B+3.5])" (set_scoreEarly true newGame)
             (mkWorld [Gone] [] [] false)).
  - reflexivity.
  - reflexivity.
  - reflexivity.
Defined.

Lemma append_assoc (a b c : string) : (a ++ b) ++ c = a ++ b ++ c.
Proof.
  induction a as [| x a IH]; cbn [append]; [reflexivity | rewrite IH; reflexivity].
Qed.

Lemma take_prefix (p t : string) (n : nat) :
  startsWith t p = true ->
  take (String.length p + n) t = p ++ take n (drop (String.length p) t).
Proof.
  revert t. induction p as [| x p IH]; intros t H.
  - reflexivity.
  - destruct t as [| c t]; [discriminate |].
    cbn [startsWith] in H. apply andb_true_iff in H. destruct H as [Hc Ht].
    apply Ascii.eqb_eq in Hc. subst c.
    cbn [String.length Nat.add take drop append]. rewrite (IH t Ht). reflexivity.
Qed.

Lemma captured0_player (s text : string) :
  captured0 matchPlayer s = Some text ->
  exists version, text = "PB[Leela Zero " ++ version.
Proof.
  induction s as [| c s IH]; cbn [captured0].
  - destruct (matchPlayer EmptyString) eqn:E; [| discriminate].
    unfold matchPlayer in E. cbn in E. discriminate.
  - destruct (matchPlayer (String c s)) as [n |] eqn:E; [| exact IH].
    intros [= <-]. unfold matchPlayer in E.
    destruct (startsWith (String c s) "PB[Leela Zero ") eqn:Es; [| discriminate].
    destruct (drop 14 (String c s)) as [| d rest] eqn:Ed; [discriminate |].
    destruct (isSpace d); [discriminate |].
    destruct (wordThenSpace rest) as [k |]; [| discriminate].
    injection E as <-.
    exists (take (S k) (drop 14 (String c s))).
    apply (take_prefix "PB[Leela Zero " (String c s) (S k) Es).
Qed.

(** X19: the player tag that replaces "PW[Human]" always reads
    "PW[Leela Zero ", then what the transcript's first
    "PB[Leela Zero <word> " tag has after "PB[Leela Zero " (nothing without
    such a tag), then the first 8 characters of the weights name and a
    closing bracket. *)
Theorem playerTag_form (weightFile sgfData : string) :
  exists version,
    playerTag weightFile sgfData =
    "PW[Leela Zero " ++ version ++ take 8 weightFile ++ "]" /\
    (captured0 matchPlayer sgfData = None -> version = EmptyString) /\
    (forall text, captured0 matchPlayer sgfData = Some text ->
                  text = "PB[Leela Zero " ++ version).
Proof.
  unfold playerTag.
  destruct (captured0 matchPlayer sgfData) as [text |] eqn:E.
  - destruct (captured0_player sgfData text E) as [version ->].
    exists version. split.
    + unfold remove. cbn [take drop Nat.add append].
      rewrite !append_assoc. reflexivity.
    + split; [discriminate | intros t [= <-]; reflexivity].
  - exists EmptyString. split; [reflexivity |].
    split; [reflexivity | discriminate].
Qed.

Lemma playerTag_form_witness :
  playerTag "0123456789abcdef" "(;GM[1]PB[Leela Zero 0.17 0a1b2c3d]PW[Human])"
  = "PW[Leela Zero 0.17 01234567]".
Proof.
  destruct (playerTag_form "0123456789abcdef"
              "(;GM[1]PB[Leela Zero 0.17 0a1b2c3d]PW[Human])")
    as [version [Htag [_ Htext]]].
  rewrite Htag.
  assert (Hv : "PB[Leela Zero 0.17 " = "PB[Leela Zero " ++ version)
    by (apply Htext; reflexivity).
  injection Hv as <-. reflexivity.
Defined.

(* ================================================================== *)
(** * Failures of the handshake *)

(** X20: the handshake ends the process, after the matching diagnostic, on
    each of its failures: an engine that is not running (launch failure), an
    answer line of at most 3 characters or without the '=' marker (GTP
    error), an answer without a '.' to split at (unexpected version,
    whatever the minimum version), and an accepted version whose
    terminator line cannot be read (the diagnostic of [eatNewLine], then
    the GTP error). *)
Theorem handshake_failures_are_fatal
        (min_version : VersionTuple) (w : World) (rc : Z) (buf : string)
        (rest : list Event) :
  (waitReady w = false ->
   checkVersion min_version w =
   Exited (error LAUNCH_FAILURE (write ("version" ++ newline) w))) /\
  (incoming w = Line rc buf :: rest -> at0 buf <> "#"%char ->
   rc <= 3 \/ at0 buf <> "="%char ->
   checkVersion min_version w =
   Exited (error WRONG_GTP
             (print [Text "GTP: "; Text buf; Endl]
                    (mkWorld rest (written w ++ [("version" ++ newline)%string])
                             (console w) (terminated w))))) /\
  (incoming w = Line rc buf :: rest -> 3 < rc -> at0 buf = "="%char ->
   (List.length (split "." (simplified (drop 2 buf))) < 2)%nat ->
   checkVersion min_version w =
   Exited (print [Text "Unexpected Leela Zero version: ";
                  Text (simplified (drop 2 buf)); Endl]
                 (mkWorld rest (written w ++ [("version" ++ newline)%string])
                          (console w) (terminated w)))) /\
  (incoming w = Line rc buf :: rest -> 3 < rc -> at0 buf = "="%char ->
   versionGate min_version (simplified (drop 2 buf)) = Accepted ->
   fst (eatNewLine (mkWorld rest (written w ++ [("version" ++ newline)%string])
                            (console w) (terminated w))) = false ->
   checkVersion min_version w =
   Exited (error WRONG_GTP
             (snd (eatNewLine
                     (mkWorld rest (written w ++ [("version" ++ newline)%string])
                              (console w) (terminated w))))) /\
   exists why,
     (why = "The 'leelaz' process died unexpected." \/
      why = "Error in GTP response.") /\
     console
       (error WRONG_GTP
          (snd (eatNewLine
                  (mkWorld rest (written w ++ [("version" ++ newline)%string])
                           (console w) (terminated w))))) =
     (console w ++ [Text "*ERROR*: "; Text why; Endl;
                    Text "*ERROR*: "; Text "Error in GTP response."; Endl])%list).
Proof.
  split; [| split; [| split]].
  - intros Hdead. unfold checkVersion.
    assert (Hw : waitReady (write ("version" ++ newline) w) = false) by exact Hdead.
    rewrite Hw. reflexivity.
  - intros Hin Hhash Hbad.
    apply Ascii.eqb_neq in Hhash.
    unfold checkVersion, waitReady, readLine. cbn [incoming write]. rewrite Hin.
    cbn [negb]. rewrite Hhash.
    assert (Hc : ((rc <=? 3) || negb (Ascii.eqb (at0 buf) "="))%bool = true).
    { destruct Hbad as [H | H].
      - apply Z.leb_le in H. rewrite H. reflexivity.
      - apply Ascii.eqb_neq in H. rewrite H. apply orb_true_r. }
    rewrite Hc. reflexivity.
  - intros Hin Hrc Heq Hlen.
    assert (Hhash : Ascii.eqb (at0 buf) "#" = false) by (rewrite Heq; reflexivity).
    assert (Hmark : Ascii.eqb (at0 buf) "=" = true) by (rewrite Heq; reflexivity).
    unfold checkVersion, waitReady, readLine. cbn [incoming write]. rewrite Hin.
    cbn [negb]. rewrite Hhash, Hmark.
    destruct (rc <=? 3) eqn:E; [apply Z.leb_le in E; lia |].
    cbn [orb negb]. unfold versionGate.
    apply Nat.ltb_lt in Hlen. rewrite Hlen.
    destruct min_version as [[min0 min1] min2]. reflexivity.
  - intros Hin Hrc Heq Hgate Heat.
    assert (Hhash : Ascii.eqb (at0 buf) "#" = false) by (rewrite Heq; reflexivity).
    assert (Hmark : Ascii.eqb (at0 buf) "=" = true) by (rewrite Heq; reflexivity).
    unfold checkVersion, waitReady, readLine. cbn [incoming write]. rewrite Hin.
    cbn [negb]. rewrite Hhash, Hmark.
    destruct (rc <=? 3) eqn:E; [apply Z.leb_le in E; lia |].
    cbn [orb negb]. rewrite Hgate.
    destruct min_version as [[min0 min1] min2].
    split.
    + destruct (eatNewLine _) as [ok w2]. cbn [fst snd] in *. subst ok.
      reflexivity.
    + clear Hgate. revert Heat.
      unfold eatNewLine, waitReady, readLine. cbn [incoming].
      destruct rest as [| [| rc2 buf2] rest2]; cbn [negb fst snd].
      * intros _. exists "The 'leelaz' process died unexpected.".
        split; [left; reflexivity |].
        unfold error, print. cbn [console]. rewrite <- !app_assoc. reflexivity.
      * intros _. exists "The 'leelaz' process died unexpected.".
        split; [left; reflexivity |].
        unfold error, print. cbn [console]. rewrite <- !app_assoc. reflexivity.
      * destruct (rc2 <? 0); cbn [fst snd]; [| discriminate].
        intros _. exists "Error in GTP response.".
        split; [right; reflexivity |].
        unfold error, print. cbn [console]. rewrite <- !app_assoc. reflexivity.
Qed.

Lemma handshake_failures_are_fatal_witness :
  checkVersion (0, 18, 0) (engineSays ["= seventeen" ++ newline; newline]) =
  Exited (mkWorld [Line 1 newline] ["version" ++ newline]
                  [Text "Unexpected Leela Zero version: "; Text "seventeen"; Endl]
                  false).
Proof.
  destruct (handshake_failures_are_fatal (0, 18, 0)
              (engineSays ["= seventeen" ++ newline; newline])
              12 ("= seventeen" ++ newline) [Line 1 newline])
    as [_ [_ [H _]]].
  rewrite H.
  - reflexivity.
  - reflexivity.
  - lia.
  - reflexivity.
  - vm_compute. apply le_n.
Defined.
